(** * qualprep: a shallow embedding of [qualprep/qualprepfunctions.py]

    The module prepares survey tables held in pandas data frames: it splits
    multi-valued categorical columns into 0/1 indicator columns, normalizes a
    free-text column against a lookup table, remaps categories through a
    dictionary and aggregates columns per group.

    Cells are dynamically typed Python objects; a data frame is an ordered
    list of rows under a list of column labels.  The row labels of a frame
    (its index) are kept beside it where the module joins frames on them,
    in [split_multiple_categorical_vars]; everywhere else the module reads
    a frame row by row, and the rows are taken to have distinct labels.
    Library calls whose result depends on Unicode tables, on
    floating-point rounding or on the ordering pandas gives to arbitrary
    objects are fields of the class [PyLib]; everything the module itself
    computes is defined here and can be evaluated. *)

From Stdlib Require Import List String Ascii ZArith Bool Lia Permutation.
From Stdlib Require Import SpecFloat DecimalString.
Import ListNotations.
Open Scope string_scope.
Open Scope list_scope.
Open Scope Z_scope.

Infix "+++" := String.append (right associativity, at level 60).

Set Warnings "-register-all".

(** ** Python values and exceptions *)

(** The cell types of the data model: text, integers, floats (with NaN as
    the missing marker), [None] and list-like cells.  Text is a sequence of
    characters; a float is the number or the special value its bits
    denote. *)
Inductive value : Type :=
| VStr (s : string)
| VInt (n : Z)
| VFloat (x : spec_float)
| VNone
| VList (items : list value).

Definition nan : value := VFloat S754_nan.

Inductive py_error : Type :=
| KeyError
| TypeError
| AttributeError
| ValueError
| IndexError.

Inductive result (A : Type) : Type :=
| Ok (a : A)
| Raise (e : py_error).

Arguments Ok {A} a.
Arguments Raise {A} e.

Definition bind {A B : Type} (r : result A) (k : A -> result B) : result B :=
  match r with
  | Ok a => k a
  | Raise e => Raise e
  end.

Notation "x <- r ;; k" := (bind r (fun x => k))
  (at level 61, r at next level, right associativity).

(** [for x in xs: f x], collecting the results; the first exception stops
    the loop. *)
Fixpoint mapM {A B : Type} (f : A -> result B) (xs : list A) : result (list B) :=
  match xs with
  | [] => Ok []
  | x :: xs' => y <- f x ;; ys <- mapM f xs' ;; Ok (y :: ys)
  end.

Definition is_ok {A : Type} (r : result A) : bool :=
  match r with Ok _ => true | Raise _ => false end.

(** ** Data frames *)

Definition row : Type := list value.

Record DataFrame : Type := mkFrame {
  columns : list string;
  rows : list row
}.

(** A frame is rectangular and its labels are unique. *)
Definition wf_frame (df : DataFrame) : Prop :=
  NoDup (columns df) /\ Forall (fun r => List.length r = List.length (columns df)) (rows df).

(** [list.index]: position of the first occurrence. *)
Fixpoint index_of (k : string) (ks : list string) : option nat :=
  match ks with
  | [] => None
  | k' :: ks' =>
      if String.eqb k k' then Some O
      else match index_of k ks' with
           | Some i => Some (S i)
           | None => None
           end
  end.

(** [seq[i] = v] on a Python list or a numpy array. *)
Fixpoint set_nth {A : Type} (i : nat) (v : A) (l : list A) : list A :=
  match l, i with
  | [], _ => []
  | _ :: l', O => v :: l'
  | x :: l', S i' => x :: set_nth i' v l'
  end.

(** [columns.get_loc(label)]; an absent label is a [KeyError]. *)
Definition get_loc (df : DataFrame) (label : string) : result nat :=
  match index_of label (columns df) with
  | Some i => Ok i
  | None => Raise KeyError
  end.

(** [data.loc[ind, label]] for the row [r] of [df]. *)
Definition loc_cell (df : DataFrame) (r : row) (label : string) : result value :=
  i <- get_loc df label ;;
  match nth_error r i with
  | Some v => Ok v
  | None => Raise KeyError
  end.

(** ** Strings *)

(** [str.split(",")]: the pieces between separators, empty pieces kept. *)
Fixpoint split_on (sep : ascii) (s : string) : list string :=
  match s with
  | EmptyString => [EmptyString]
  | String c s' =>
      if Ascii.eqb c sep then EmptyString :: split_on sep s'
      else match split_on sep s' with
           | [] => [String c EmptyString]
           | t :: ts => String c t :: ts
           end
  end.

Definition comma : ascii := ","%char.

(** [str(n)] for an integer. *)
Definition str_of_int (n : Z) : string := NilZero.string_of_int (Z.to_int n).

Fixpoint join (sep : string) (l : list string) : string :=
  match l with
  | [] => ""
  | [s] => s
  | s :: l' => s +++ sep +++ join sep l'
  end.

Definition str_in (k : string) (l : list string) : bool :=
  existsb (String.eqb k) l.

(** ** The Python and pandas calls the module relies on *)

Class PyLib : Type := {
  (** [str.lower] *)
  str_lower : string -> string;
  (** [repr], which [str] of a list applies to the items *)
  py_repr : value -> string;
  (** [ast.literal_eval] of a split instruction cell, as a dictionary in
      insertion order *)
  literal_eval : value -> result (list (string * string));
  (** [Series.mean(skipna=True)] and [Series.median(skipna=True)] *)
  series_mean : list value -> result value;
  series_median : list value -> result value;
  (** [max] and [min] of an object-typed series that is not all numbers *)
  object_max : list value -> result value;
  object_min : list value -> result value;
  (** the reductions [GroupBy.agg] knows by name *)
  named_reduction : string -> option (list value -> result value);
  (** the order in which [groupby] and [get_dummies] list distinct keys *)
  sort_keys : list value -> list value;
  (** [pd.concat([a, b], axis=1)] of a frame [a] with the row labels
      [index] and a frame [b] with the default row labels, when the two
      indexes differ: the outer join on the row labels, with the row labels
      of the result *)
  concat_outer : list value -> DataFrame -> DataFrame
                 -> result (list value * DataFrame);
  sort_keys_perm : forall l, Permutation (sort_keys l) l
}.

(** ** Helper functions of the module *)

(** [is_nan]: [isinstance(x, float) and math.isnan(x)]. *)
Definition is_nan (x : value) : bool :=
  match x with
  | VFloat S754_nan => true
  | _ => false
  end.

(** [response_length]: 1 for an [int], [len(x)] otherwise; [len] of a float
    or of [None] is a [TypeError]. *)
Definition response_length (x : value) : result Z :=
  match x with
  | VInt _ => Ok 1
  | VStr s => Ok (Z.of_nat (String.length s))
  | VList l => Ok (Z.of_nat (List.length l))
  | VFloat _ | VNone => Raise TypeError
  end.

Section Splitter.
Context {py : PyLib}.

(** [str(x)] *)
Definition py_str (x : value) : string :=
  match x with
  | VStr s => s
  | VInt n => str_of_int n
  | VList l => "[" +++ join ", " (map py_repr l) +++ "]"
  | VFloat _ | VNone => py_repr x
  end.

(** [val.split(",")]: only strings have the method. *)
Definition py_split (x : value) : result (list string) :=
  match x with
  | VStr s => Ok (split_on comma s)
  | _ => Raise AttributeError
  end.

(** Lines 47-51: the tokens of a response that is not NaN. *)
Definition tokens (val : value) : result (list string) :=
  n <- response_length val ;;
  if 1 <? n then py_split val else Ok [py_str val].

(** Lines 53-58: the loop over the keys, writing 1 at each key's index. *)
Definition mark_keys (keys : list string) (val : list string) (add : list Z) : list Z :=
  fold_left
    (fun add key =>
       if str_in key val then
         match index_of key keys with
         | Some i => set_nth i 1 add
         | None => add
         end
       else add)
    keys add.

(** Lines 42-61: the indicator array of one response. *)
Definition split_response (values_and_labels : list (string * string)) (val : value)
  : result (list Z) :=
  let add := repeat 0 (List.length values_and_labels) in
  if negb (is_nan val) then
    toks <- tokens val ;;
    Ok (mark_keys (map fst values_and_labels) toks add)
  else Ok add.

(** [split_categorical_vars]: one indicator row per response, under the
    labels of [values_and_labels]. *)
Definition split_categorical_vars (series : list value)
    (values_and_labels : list (string * string)) : result DataFrame :=
  output <- mapM (split_response values_and_labels) series ;;
  Ok (mkFrame (map snd values_and_labels) (map (map VInt) output)).

End Splitter.

(** ** Normalizer *)

(** What a call leaves behind: the lines it printed, and its result or the
    exception that ended it. *)
Record run (A : Type) : Type := mkRun {
  printed : list string;
  outcome : result A
}.

Arguments mkRun {A} printed outcome.
Arguments printed {A} r.
Arguments outcome {A} r.

Section Normalizer.
Context {py : PyLib}.

(** [val.lower()]: only strings have the method. *)
Definition py_lower (x : value) : result string :=
  match x with
  | VStr s => Ok (str_lower s)
  | _ => Raise AttributeError
  end.

(** [series[position] = v]: positional assignment into a row. *)
Definition series_set (r : row) (position : nat) (v : value) : result row :=
  if Nat.ltb position (List.length r) then Ok (set_nth position v r)
  else Raise IndexError.

(** [replace]: one copy of the row per replacement, with the replacement
    written at [position]. *)
Definition replace (replace_in_object : row) (replacement_string : list value)
    (position : nat) : result (list row) :=
  mapM (fun replstr => series_set replace_in_object position replstr)
       replacement_string.

(** [lookup.loc[lookup["rawstring"] == key, "normalized"]]: the normalized
    entries of the key, in table order. *)
Definition lookup_matches (lookup : list (string * value)) (key : string) : list value :=
  map snd (filter (fun e => String.eqb (fst e) key) lookup).

Definition no_entry_message (v : value) : string :=
  "No entry found for " +++ py_str v +++
  " in normalization_info. Keep original version.".

(** Lines 201-216: the loop over the rows still to visit, with the rows
    collected and the lines printed so far. *)
Fixpoint normalize_loop (data : DataFrame) (lookup : list (string * value))
    (normalization_variable : string) (todo : list row)
    (normalized_data : list row) (out : list string) : run (list row) :=
  match todo with
  | [] => mkRun out (Ok normalized_data)
  | r :: todo' =>
      match (v <- loc_cell data r normalization_variable ;;
             low <- py_lower v ;;
             Ok (v, lookup_matches lookup low)) with
      | Raise e => mkRun out (Raise e)
      | Ok (v, replacement_string) =>
          if Nat.eqb (List.length replacement_string) 0 then
            normalize_loop data lookup normalization_variable todo'
              normalized_data (out ++ [no_entry_message v])
          else
            match (normalization_position <- get_loc data normalization_variable ;;
                   replace r replacement_string normalization_position) with
            | Raise e => mkRun out (Raise e)
            | Ok normalized_row =>
                normalize_loop data lookup normalization_variable todo'
                  (normalized_data ++ normalized_row) out
            end
      end
  end.

(** [normalize_data] *)
Definition normalize_data (data : DataFrame) (lookup : list (string * value))
    (normalization_variable : string) : run DataFrame :=
  let r := normalize_loop data lookup normalization_variable (rows data) [] [] in
  mkRun (printed r)
        (normalized_data <- outcome r ;; Ok (mkFrame (columns data) normalized_data)).

End Normalizer.

(** ** Category remapper *)

(** [d[key]] for a dictionary with text keys: a list is unhashable, any
    other absent key is a [KeyError]. *)
Fixpoint dict_get (d : list (string * string)) (k : string) : option string :=
  match d with
  | [] => None
  | (k', v) :: d' => if String.eqb k k' then Some v else dict_get d' k
  end.

Definition dict_getitem (d : list (string * string)) (key : value) : result string :=
  match key with
  | VStr s =>
      match dict_get d s with
      | Some v => Ok v
      | None => Raise KeyError
      end
  | VList _ => Raise TypeError
  | _ => Raise KeyError
  end.

(** Line 253 for one row. *)
Definition remap_row (data : DataFrame) (column : string)
    (replacement_string_dict : list (string * string)) (r : row) : result row :=
  v <- loc_cell data r column ;;
  g <- dict_getitem replacement_string_dict v ;;
  i <- get_loc data column ;;
  Ok (set_nth i (VStr g) r).

(** [repl_with_agg_string] *)
Definition repl_with_agg_string (data : DataFrame) (column : string)
    (replacement_string_dict : list (string * string)) : result DataFrame :=
  data_updated <- mapM (remap_row data column replacement_string_dict) (rows data) ;;
  Ok (mkFrame (columns data) data_updated).

(** ** Numbers, missing values and keys *)

(** [pd.isnull] of a scalar cell. *)
Definition is_null (x : value) : bool :=
  match x with
  | VNone => true
  | VFloat S754_nan => true
  | _ => false
  end.

Definition notnull (x : value) : bool := negb (is_null x).

Definition signed (neg : bool) (m : positive) : Z :=
  if neg then Z.neg m else Z.pos m.

(** [x == n] for a float [x] and an integer [n]: the float denotes
    [m * 2^e]. *)
Definition float_eq_int (x : spec_float) (n : Z) : bool :=
  match x with
  | S754_zero _ => n =? 0
  | S754_finite s m e =>
      if 0 <=? e then signed s m * 2 ^ e =? n
      else signed s m =? n * 2 ^ (- e)
  | S754_infinity _ | S754_nan => false
  end.

(** [cell == n], the comparison a series applies to each of its cells. *)
Definition eq_int (v : value) (n : Z) : bool :=
  match v with
  | VInt z => z =? n
  | VFloat x => float_eq_int x n
  | _ => false
  end.

(** Keys as the hash tables of pandas see them: equal numbers are one key
    whatever their type, NaN is one key.  A list is unhashable; the
    operations that hash raise before using its key. *)
Inductive key : Type :=
| KStr (s : string)
| KNum (m e : Z)
| KInf (neg : bool)
| KNaN
| KNone
| KUnhashable.

Fixpoint strip (p : positive) (e : Z) : positive * Z :=
  match p with
  | xO p' => strip p' (e + 1)
  | _ => (p, e)
  end.

Definition num_key (neg : bool) (m : positive) (e : Z) : key :=
  let (m', e') := strip m e in KNum (signed neg m') e'.

Definition key_of (v : value) : key :=
  match v with
  | VStr s => KStr s
  | VInt 0 => KNum 0 0
  | VInt (Z.pos p) => num_key false p 0
  | VInt (Z.neg p) => num_key true p 0
  | VFloat (S754_zero _) => KNum 0 0
  | VFloat (S754_finite s m e) => num_key s m e
  | VFloat (S754_infinity s) => KInf s
  | VFloat S754_nan => KNaN
  | VNone => KNone
  | VList _ => KUnhashable
  end.

(** The keys of the missing values. *)
Definition key_null (k : key) : bool :=
  match k with
  | KNaN | KNone => true
  | _ => false
  end.

Definition key_eq_dec (a b : key) : {a = b} + {a <> b}.
Proof.
  decide equality; auto using string_dec, Z.eq_dec, bool_dec.
Defined.

Definition same_key (a b : value) : bool :=
  if key_eq_dec (key_of a) (key_of b) then true else false.

Definition hashable (v : value) : bool :=
  match v with
  | VList _ => false
  | _ => true
  end.

(** Keep the first cell of every key. *)
Fixpoint distinct (l : list value) : list value :=
  match l with
  | [] => []
  | x :: l' => x :: filter (fun y => negb (same_key x y)) (distinct l')
  end.

(** [Series.drop_duplicates()] *)
Definition drop_duplicates (l : list value) : result (list value) :=
  if forallb hashable l then Ok (distinct l) else Raise TypeError.

Definition is_number (v : value) : bool :=
  match v with
  | VInt _ => true
  | VFloat _ => true
  | _ => false
  end.

(** Order of two numbers that are not NaN. *)
Inductive extended : Type :=
| NegInf
| Fin (m e : Z)
| PosInf.

Definition extended_of (v : value) : extended :=
  match v with
  | VInt n => Fin n 0
  | VFloat (S754_finite s m e) => Fin (signed s m) e
  | VFloat (S754_infinity true) => NegInf
  | VFloat (S754_infinity false) => PosInf
  | _ => Fin 0 0
  end.

Definition num_ltb (a b : value) : bool :=
  match extended_of a, extended_of b with
  | NegInf, NegInf => false
  | NegInf, _ => true
  | _, NegInf => false
  | PosInf, _ => false
  | _, PosInf => true
  | Fin m1 e1, Fin m2 e2 =>
      let e := Z.min e1 e2 in
      m1 * 2 ^ (e1 - e) <? m2 * 2 ^ (e2 - e)
  end.

Definition num_max (a b : value) : value := if num_ltb a b then b else a.
Definition num_min (a b : value) : value := if num_ltb b a then b else a.

(** A column pandas stores with the [object] dtype: it is empty or holds a
    cell that is not a number. *)
Definition object_dtype (col : list value) : bool :=
  match col with
  | [] => true
  | _ => negb (forallb is_number col)
  end.

Definition is_float (v : value) : bool :=
  match v with
  | VFloat _ => true
  | _ => false
  end.

(** A column stored as [float64]: every cell is a float. *)
Definition float_dtype (col : list value) : bool := forallb is_float col.

Definition float_one : spec_float := S754_finite false 4503599627370496 (-52).

(** The integer [n] as a series of the dtype of [col] stores it, for
    [n] 0 or 1. *)
Definition stored_bit (col : list value) (b : bool) : value :=
  if float_dtype col then VFloat (if b then float_one else S754_zero false)
  else VInt (if b then 1 else 0).

(** ** Aggregator *)

(** The frame [aggregate_col] returns: the group keys as index, named after
    the grouping column, and one column with the reduced values. *)
Record AggCol : Type := mkAggCol {
  agg_index_name : string;
  agg_label : string;
  agg_rows : list (value * value)
}.

(** The argument of [agg]: a callable once resolved, else the object the
    instruction holds. *)
Inductive agg_fn : Type :=
| Callable (f : list value -> result value)
| Name (v : value).

Section Aggregator.
Context {py : PyLib}.

(** [Series.max(skipna=True)] and [Series.min(skipna=True)]: over numbers
    the largest and the smallest that is not missing, NaN when none is
    left. *)
Definition series_max (s : list value) : result value :=
  let xs := filter notnull s in
  if forallb is_number xs then
    Ok (match xs with
        | [] => nan
        | x :: r => fold_left num_max r x
        end)
  else object_max xs.

Definition series_min (s : list value) : result value :=
  let xs := filter notnull s in
  if forallb is_number xs then
    Ok (match xs with
        | [] => nan
        | x :: r => fold_left num_min r x
        end)
  else object_min xs.

Definition custom_mean (df : list value) : result value := series_mean df.
Definition custom_median (df : list value) : result value := series_median df.
Definition custom_max (df : list value) : result value := series_max df.
Definition custom_min (df : list value) : result value := series_min df.

(** [s[s != n] = 0] and [s[s == n] = 1] *)
Definition clear_unequal (n : Z) (s : list value) : list value :=
  map (fun v => if negb (eq_int v n) then stored_bit s false else v) s.

Definition set_equal (n : Z) (s : list value) : list value :=
  map (fun v => if eq_int v n then stored_bit s true else v) s.

(** The body shared by [custom_one] ... [custom_six]. *)
Definition custom_equals (n : Z) (df : list value) : result value :=
  let df_copy := df in
  let df_copy := clear_unequal n df_copy in
  let df_copy := set_equal n df_copy in
  series_max df_copy.

Definition custom_one : list value -> result value := custom_equals 1.
Definition custom_two : list value -> result value := custom_equals 2.
Definition custom_three : list value -> result value := custom_equals 3.
Definition custom_four : list value -> result value := custom_equals 4.
Definition custom_five : list value -> result value := custom_equals 5.
Definition custom_six : list value -> result value := custom_equals 6.

(** [if agg_function == name: agg_function = f] *)
Definition resolve_step (name : string) (f : list value -> result value)
    (a : agg_fn) : agg_fn :=
  match a with
  | Name (VStr s) => if String.eqb s name then Callable f else a
  | _ => a
  end.

(** Lines 285-313 *)
Definition resolve (agg_function : value) : agg_fn :=
  let a := Name agg_function in
  let a := resolve_step "mean" custom_mean a in
  let a := resolve_step "median" custom_median a in
  let a := resolve_step "max" custom_max a in
  let a := resolve_step "min" custom_min a in
  let a := resolve_step "one" custom_one a in
  let a := resolve_step "two" custom_two a in
  let a := resolve_step "three" custom_three a in
  let a := resolve_step "four" custom_four a in
  let a := resolve_step "five" custom_five a in
  let a := resolve_step "six" custom_six a in
  a.

(** A cell used as a column label; the labels of a frame are text. *)
Definition label_of (v : value) : result string :=
  match v with
  | VStr s => Ok s
  | VList _ => Raise TypeError
  | _ => Raise KeyError
  end.

(** [df[label]] *)
Definition column_values (df : DataFrame) (label : string) : result (list value) :=
  _ <- get_loc df label ;;
  mapM (fun r => loc_cell df r label) (rows df).

(** What [agg] calls on each group: a callable itself, a name through the
    attributes of the group-by object. *)
Definition agg_callable (a : agg_fn) : result (list value -> result value) :=
  match a with
  | Callable f => Ok f
  | Name (VStr s) =>
      match named_reduction s with
      | Some f => Ok f
      | None => Raise AttributeError
      end
  | Name _ => Raise TypeError
  end.

(** The keys of [groupby]: the distinct keys that are not missing. *)
Definition group_keys (keys : list value) : result (list value) :=
  if forallb hashable keys then Ok (sort_keys (distinct (filter notnull keys)))
  else Raise TypeError.

(** The cells of the aggregated column in the group of [k]. *)
Definition group_values (keys vals : list value) (k : value) : list value :=
  map snd (filter (fun kv => same_key k (fst kv)) (combine keys vals)).

(** [groupby(...)[...].agg(f)]: [f] of every group, by key. *)
Definition groupby_agg (keys vals : list value) (f : list value -> result value)
  : result (list (value * value)) :=
  ks <- group_keys keys ;;
  mapM (fun k => v <- f (group_values keys vals k) ;; Ok (k, v)) ks.

(** [aggregate_col] *)
Definition aggregate_col (data : DataFrame) (aggregation_column : string)
    (column_to_be_aggregated : value) (agg_function : value) : result AggCol :=
  let agg_function := resolve agg_function in
  keys <- column_values data aggregation_column ;;
  label <- label_of column_to_be_aggregated ;;
  vals <- column_values data label ;;
  f <- agg_callable agg_function ;;
  reduced <- groupby_agg keys vals f ;;
  Ok (mkAggCol aggregation_column label reduced).


(** [pd.concat([a, b], axis = 1)] for two frames with the same row labels:
    the rows are paired one by one. *)
Definition concat_columns (a b : DataFrame) : DataFrame :=
  mkFrame (columns a ++ columns b)
          (map (fun rr => fst rr ++ snd rr) (combine (rows a) (rows b))).

(** [df.drop(columns = label)] *)
Definition drop_column (df : DataFrame) (label : string) : DataFrame :=
  let keep (cells : list value) :=
    map snd (filter (fun lc => negb (String.eqb (fst lc) label))
                    (combine (columns df) cells)) in
  mkFrame (filter (fun c => negb (String.eqb c label)) (columns df))
          (map keep (rows df)).

(** The indicator columns [get_dummies] makes of one column: one per
    distinct value that is not missing, named prefix, underscore, value. *)
Definition dummy_levels (dat : DataFrame) (variable : value)
  : result (list (string * nat * value)) :=
  label <- label_of variable ;;
  i <- get_loc dat label ;;
  col <- column_values dat label ;;
  if negb (object_dtype col) then Raise ValueError
  else if negb (forallb hashable col) then Raise TypeError
  else Ok (map (fun level => (label, i, level))
               (sort_keys (distinct (filter notnull col)))).

Definition dummy_name (spec : string * nat * value) : string :=
  let '(label, _, level) := spec in label +++ "_" +++ py_str level.

Definition dummy_cell (r : row) (spec : string * nat * value) : value :=
  let '(_, i, level) := spec in
  VInt (if same_key level (nth i r VNone) then 1 else 0).

(** [pd.get_dummies(dat[dummies], prefix = dummies)] *)
Definition get_dummies (dat : DataFrame) (dummies : list value) : result DataFrame :=
  specs <- mapM (dummy_levels dat) dummies ;;
  let specs := List.concat specs in
  Ok (mkFrame (map dummy_name specs)
              (map (fun r => map (dummy_cell r) specs) (rows dat))).

Definition is_dummy (instruction : value * value) : bool :=
  match snd instruction with
  | VStr s => String.eqb s "dummy"
  | _ => false
  end.

(** [Series.isin(values)] for one cell *)
Definition isin (v : value) (values : list value) : bool :=
  existsb (same_key v) values.

(** Lines 353-365: the instructions flagged [dummy] are replaced by a [max]
    instruction for each indicator column, and the indicator columns are
    added to the data. *)
Definition expand_dummies (dat : DataFrame) (aggregation_information : list (value * value))
  : result (DataFrame * list (value * value)) :=
  let dummies := map fst (filter is_dummy aggregation_information) in
  if Nat.ltb 0 (List.length dummies) then
    dat_dummies <- get_dummies dat dummies ;;
    let dat := concat_columns dat dat_dummies in
    let dummy_instructions :=
      map (fun var => (VStr var, VStr "max")) (columns dat_dummies) in
    let aggregation_information := aggregation_information ++ dummy_instructions in
    if forallb (fun i => hashable (fst i)) aggregation_information then
      Ok (dat, filter (fun i => negb (isin (fst i) dummies)) aggregation_information)
    else Raise TypeError
  else Ok (dat, aggregation_information).

(** [pd.merge(left, right, on = on)]: the inner join of a frame with an
    aggregated column on the key [on], a column of [left] and the index of
    [right].  A label on both sides gets the suffixes [_x] and [_y]. *)
Definition merge (left : DataFrame) (right : AggCol) (on : string) : result DataFrame :=
  i <- get_loc left on ;;
  if negb (String.eqb (agg_index_name right) on) then Raise KeyError
  else if String.eqb (agg_label right) on then Raise ValueError
  else
    let overlap := str_in (agg_label right) (columns left) in
    let left_label c :=
      if overlap && String.eqb c (agg_label right) then c +++ "_x" else c in
    let right_label :=
      if overlap then agg_label right +++ "_y" else agg_label right in
    let matches l :=
      filter (fun kv => same_key (nth i l VNone) (fst kv)) (agg_rows right) in
    Ok (mkFrame (map left_label (columns left) ++ [right_label])
                (flat_map (fun l => map (fun kv => l ++ [snd kv]) (matches l))
                          (rows left))).

(** Lines 372-377 *)
Fixpoint aggregate_loop (dat : DataFrame) (aggregation_variable : string)
    (aggregation_information : list (value * value)) (data_aggregated : DataFrame)
  : result DataFrame :=
  match aggregation_information with
  | [] => Ok data_aggregated
  | (variable, agg_function) :: rest =>
      aggregated_col <- aggregate_col dat aggregation_variable variable agg_function ;;
      data_aggregated <- merge data_aggregated aggregated_col aggregation_variable ;;
      aggregate_loop dat aggregation_variable rest data_aggregated
  end.

(** [aggregate_data], given the rows of the instruction table: lines
    353-370, then the loop.  With no
    instruction left the code returns the de-duplicated grouping column
    itself, here a frame of that one column. *)
Definition aggregate_setup (data : DataFrame)
    (aggregation_information : list (value * value)) (aggregation_variable : string)
  : result (DataFrame * list (value * value) * DataFrame) :=
  let dat := data in
  di <- expand_dummies dat aggregation_information ;;
  let '(dat, aggregation_information) := di in
  keys <- column_values dat aggregation_variable ;;
  ks <- drop_duplicates keys ;;
  let data_aggregated := mkFrame [aggregation_variable] (map (fun k => [k]) ks) in
  Ok (dat, aggregation_information, data_aggregated).

Definition aggregate_data (data : DataFrame) (aggregation_information : list (value * value))
    (aggregation_variable : string) : result DataFrame :=
  s <- aggregate_setup data aggregation_information aggregation_variable ;;
  let '(dat, aggregation_information, data_aggregated) := s in
  aggregate_loop dat aggregation_variable aggregation_information data_aggregated.

(** ** Splitting several columns *)

(** The default row labels [RangeIndex(n)] of a frame built from a list of
    [n] rows. *)
Definition range_index (n : nat) : list value :=
  map (fun i => VInt (Z.of_nat i)) (seq 0 n).

(** [Index.equals]: the same labels in the same order. *)
Fixpoint same_labels (a b : list value) : bool :=
  match a, b with
  | [], [] => true
  | x :: a', y :: b' => same_key x y && same_labels a' b'
  | _, _ => false
  end.

(** [pd.concat([a, b], axis=1)] (line 99), [index] being the row labels of
    [a] and [b] a frame just built, with the default row labels.  The frames
    are joined on their row labels: row by row when the labels agree, by the
    outer join of the library otherwise.  The result comes with its row
    labels. *)
Definition concat_axis1 (index : list value) (a b : DataFrame)
  : result (list value * DataFrame) :=
  if same_labels index (range_index (List.length (rows b))) then
    Ok (index, concat_columns a b)
  else concat_outer index a b.

(** Lines 95-99; [index] holds the row labels of [dat]. *)
Fixpoint split_loop (dat : DataFrame) (index : list value)
    (split_info : list (value * value)) : result (list value * DataFrame) :=
  match split_info with
  | [] => Ok (index, dat)
  | (variable_name, values_and_labels) :: rest =>
      label <- label_of variable_name ;;
      series <- column_values dat label ;;
      d <- literal_eval values_and_labels ;;
      split_variable <- split_categorical_vars series d ;;
      let dat := drop_column dat label in
      joined <- concat_axis1 index dat split_variable ;;
      let '(index, dat) := joined in
      split_loop dat index rest
  end.

(** [split_multiple_categorical_vars], given the row labels [index] of
    [data] and the rows of the instruction table. *)
Definition split_multiple_categorical_vars (data : DataFrame)
    (index : list value) (split_info : list (value * value))
  : result DataFrame :=
  let dat := data in
  joined <- split_loop dat index split_info ;;
  Ok (snd joined).


(** ** Building the lookup *)

(** [Series.str.lower()] on one cell: a cell that is not text becomes NaN. *)
Definition lower_cell (v : value) : value :=
  match v with
  | VStr s => VStr (str_lower s)
  | _ => nan
  end.

(** [drop_duplicates(subset = ["rawstring"])] on rows that start with the
    raw string: the first row of every key stays. *)
Fixpoint distinct_rows (l : list row) : list row :=
  match l with
  | [] => []
  | r :: l' =>
      r :: filter (fun r' => negb (same_key (hd VNone r) (hd VNone r')))
                  (distinct_rows l')
  end.

(** [if pd.notnull(x)]: of a list only one with a single scalar item has a
    truth value. *)
Definition if_notnull (x : value) : result bool :=
  match x with
  | VList [VList _] => Raise ValueError
  | VList [y] => Ok (notnull y)
  | VList _ => Raise ValueError
  | _ => Ok (notnull x)
  end.

(** Lines 129-132 for one row of the indexed table. *)
Definition lookup_entries (r : row) : result (list (string * value)) :=
  match r with
  | [] => Ok []
  | index :: cells =>
      es <- mapM (fun c =>
                    b <- if_notnull c ;;
                    Ok (if b then [(str_lower (py_str index), c)] else []))
                 cells ;;
      Ok (List.concat es)
  end.

(** [get_lookup]: the wide table of raw strings and replacements as
    (rawstring, normalized) pairs. *)
Definition get_lookup (df : DataFrame) : result (list (string * value)) :=
  match columns df with
  | [] => Raise IndexError
  | _ :: _ =>
      let rawstring := map (hd VNone) (rows df) in
      if object_dtype rawstring then
        let lowered :=
          map (fun r => match r with
                        | [] => []
                        | c :: cells => lower_cell c :: cells
                        end) (rows df) in
        norm_dict <- mapM lookup_entries (distinct_rows lowered) ;;
        Ok (List.concat norm_dict)
      else Raise AttributeError
  end.

End Aggregator.

(** ** Calls on objects

    Python passes data frames by reference.  The functions above compute on
    the content of their arguments; here the arguments are objects of a
    heap, which shows what a call does to them, and the console collects
    what is printed. *)
Module Call.

Definition loc : Type := nat.

(** The objects, the lines printed on standard output, the progress bars
    [tqdm] has shown on standard error, each with the number of items of its
    loop, and the row labels of the objects. *)
Record world : Type := mkWorld {
  heap : loc -> DataFrame;
  console : list string;
  bars : list nat;
  row_labels : loc -> list value
}.

Definition M (A : Type) : Type := world -> result A * world.

Definition ret {A : Type} (a : A) : M A := fun w => (Ok a, w).

Definition bindM {A B : Type} (m : M A) (k : A -> M B) : M B :=
  fun w =>
    match m w with
    | (Ok a, w') => k a w'
    | (Raise e, w') => (Raise e, w')
    end.

Notation "x <~ m ;; k" := (bindM m (fun x => k))
  (at level 61, m at next level, right associativity).

Definition lift {A : Type} (r : result A) : M A := fun w => (r, w).

(** [obj.copy()]: the content of an object. *)
Definition load (l : loc) : M DataFrame := fun w => (Ok (heap w l), w).

(** [obj.index]: the row labels of an object. *)
Definition index_of (l : loc) : M (list value) :=
  fun w => (Ok (row_labels w l), w).

(** [obj.columns = labels]: in place; the number of labels must be the
    number of columns. *)
Definition set_columns (l : loc) (labels : list string) : M unit :=
  fun w =>
    let df := heap w l in
    if Nat.eqb (List.length labels) (List.length (columns df)) then
      (Ok tt,
       mkWorld (fun l' => if Nat.eqb l' l then mkFrame labels (rows df) else heap w l')
               (console w) (bars w) (row_labels w))
    else (Raise ValueError, w).

(** A call that prints. *)
Definition emit {A : Type} (r : run A) : M A :=
  fun w => (outcome r,
            mkWorld (heap w) (console w ++ printed r) (bars w) (row_labels w)).

(** [tqdm(index)]: the progress bar of a loop over [n] items. *)
Definition tqdm (n : nat) : M unit :=
  fun w => (Ok tt, mkWorld (heap w) (console w) (bars w ++ [n]) (row_labels w)).

(** The rows of a two-column instruction table. *)
Definition table_rows (df : DataFrame) : list (value * value) :=
  map (fun r => (nth 0 r VNone, nth 1 r VNone)) (rows df).

Section Entry.
Context {py : PyLib}.

Definition split_labels : list string := ["variable_name"; "values_and_labels"].
Definition aggregation_labels : list string := ["variable"; "agg_function"].

(** Each function on the copy [dat] it takes of its data; the copy has the
    row labels [index] of the data. *)
Definition split_from (dat : DataFrame) (index : list value) (split_info : loc)
  : M DataFrame :=
  _ <~ set_columns split_info split_labels ;;
  info <~ load split_info ;;
  _ <~ tqdm (List.length (rows info)) ;;
  lift (split_multiple_categorical_vars dat index (table_rows info)).

Definition normalize_from (dat : DataFrame) (lookup : list (string * value))
    (normalization_variable : string) : M DataFrame :=
  _ <~ tqdm (List.length (rows dat)) ;;
  emit (normalize_data dat lookup normalization_variable).

Definition remap_from (dat : DataFrame) (column : string)
    (replacement_string_dict : list (string * string)) : M DataFrame :=
  lift (repl_with_agg_string dat column replacement_string_dict).

Definition aggregate_from (dat : DataFrame) (aggregation_information : loc)
    (aggregation_variable : string) : M DataFrame :=
  _ <~ set_columns aggregation_information aggregation_labels ;;
  info <~ load aggregation_information ;;
  s <~ lift (aggregate_setup dat (table_rows info) aggregation_variable) ;;
  let '(dat, instructions, data_aggregated) := s in
  _ <~ tqdm (List.length instructions) ;;
  lift (aggregate_loop dat aggregation_variable instructions data_aggregated).

(** The entry points, called with objects. *)
Definition split_multiple_categorical_vars (data split_info : loc) : M DataFrame :=
  dat <~ load data ;;
  index <~ index_of data ;;
  split_from dat index split_info.

Definition normalize_data (data : loc) (lookup : list (string * value))
    (normalization_variable : string) : M DataFrame :=
  dat <~ load data ;;
  normalize_from dat lookup normalization_variable.

Definition repl_with_agg_string (data : loc) (column : string)
    (replacement_string_dict : list (string * string)) : M DataFrame :=
  dat <~ load data ;;
  remap_from dat column replacement_string_dict.

Definition aggregate_data (data aggregation_information : loc)
    (aggregation_variable : string) : M DataFrame :=
  dat <~ load data ;;
  aggregate_from dat aggregation_information aggregation_variable.

(** [create_data]; an absent configuration is [None].  Line 447 gives the
    copy of the data the default row labels. *)
Definition create_data (data : loc) (split_info normalization_info : option loc)
    (normalization_variable : string)
    (aggregation_category_dict : option (list (string * string)))
    (aggregation_category_variable : string)
    (aggregation_information : option loc) (aggregation_variable : string)
  : M DataFrame :=
  dat <~ load data ;;
  dat <~ match split_info with
         | Some split_info =>
             split_from dat (range_index (List.length (rows dat))) split_info
         | None => ret dat
         end ;;
  dat <~ match normalization_info with
         | Some normalization_info =>
             info <~ load normalization_info ;;
             norm_dict <~ lift (get_lookup info) ;;
             normalize_from dat norm_dict normalization_variable
         | None => ret dat
         end ;;
  dat <~ match aggregation_category_dict with
         | Some d => remap_from dat aggregation_category_variable d
         | None => ret dat
         end ;;
  match aggregation_information with
  | Some aggregation_information =>
      aggregate_from dat aggregation_information aggregation_variable
  | None => ret dat
  end.

End Entry.
End Call.

(** ** An instance of the library

    Enough of Python and pandas to run the definitions: text over ASCII,
    dictionary literals of quoted text without escapes, means and medians
    of integer series, and three of the reductions pandas knows by name. *)
Module Lib.

Definition lower_char (c : ascii) : ascii :=
  let n := nat_of_ascii c in
  if (Nat.leb 65 n && Nat.leb n 90)%bool then ascii_of_nat (n + 32) else c.

Fixpoint lower (s : string) : string :=
  match s with
  | EmptyString => EmptyString
  | String c s' => String (lower_char c) (lower s')
  end.

(** [repr]; finite floats other than zero and nested lists are not
    spelled out. *)
Definition repr (v : value) : string :=
  match v with
  | VStr s => "'" +++ s +++ "'"
  | VInt n => str_of_int n
  | VNone => "None"
  | VFloat S754_nan => "nan"
  | VFloat (S754_infinity false) => "inf"
  | VFloat (S754_infinity true) => "-inf"
  | VFloat (S754_zero false) => "0.0"
  | VFloat (S754_zero true) => "-0.0"
  | VFloat (S754_finite _ _ _) => "<float>"
  | VList _ => "<list>"
  end.

(** [d[k] = v] on a dictionary in insertion order *)
Fixpoint dict_set (d : list (string * string)) (k v : string) : list (string * string) :=
  match d with
  | [] => [(k, v)]
  | (k', v') :: d' =>
      if String.eqb k k' then (k, v) :: d' else (k', v') :: dict_set d' k v
  end.

Inductive parser : Type :=
| Start
| Entry (first : bool)
| InKey (q : ascii) (k : string)
| Colon (k : string)
| Item (k : string)
| InItem (q : ascii) (k v : string)
| Next
| Done.

Definition double_quote : ascii := ascii_of_nat 34.

Definition is_quote (c : ascii) : bool :=
  (Ascii.eqb c "'"%char || Ascii.eqb c double_quote)%bool.

Definition is_space (c : ascii) : bool := Ascii.eqb c " "%char.

Definition snoc (s : string) (c : ascii) : string := s +++ String c EmptyString.

Fixpoint parse_dict (s : string) (st : parser) (d : list (string * string))
  : result (list (string * string)) :=
  match s with
  | EmptyString =>
      match st with
      | Done => Ok d
      | _ => Raise ValueError
      end
  | String c s' =>
      match st with
      | InKey q k =>
          if Ascii.eqb c q then parse_dict s' (Colon k) d
          else parse_dict s' (InKey q (snoc k c)) d
      | InItem q k v =>
          if Ascii.eqb c q then parse_dict s' Next (dict_set d k v)
          else parse_dict s' (InItem q k (snoc v c)) d
      | _ =>
          if is_space c then parse_dict s' st d
          else
            match st with
            | Start =>
                if Ascii.eqb c "{"%char then parse_dict s' (Entry true) d
                else Raise ValueError
            | Entry first =>
                if is_quote c then parse_dict s' (InKey c EmptyString) d
                else if (first && Ascii.eqb c "}"%char)%bool then parse_dict s' Done d
                else Raise ValueError
            | Colon k =>
                if Ascii.eqb c ":"%char then parse_dict s' (Item k) d
                else Raise ValueError
            | Item k =>
                if is_quote c then parse_dict s' (InItem c k EmptyString) d
                else Raise ValueError
            | Next =>
                if Ascii.eqb c ","%char then parse_dict s' (Entry false) d
                else if Ascii.eqb c "}"%char then parse_dict s' Done d
                else Raise ValueError
            | _ => Raise ValueError
            end
      end
  end.

Definition eval_dict (v : value) : result (list (string * string)) :=
  match v with
  | VStr s => parse_dict s Start []
  | _ => Raise ValueError
  end.

Definition float_of_Z (n : Z) : spec_float := binary_normalize 53 1024 n 0 false.

Fixpoint ints (l : list value) : option (list Z) :=
  match l with
  | [] => Some []
  | VInt n :: l' =>
      match ints l' with
      | Some ns => Some (n :: ns)
      | None => None
      end
  | _ => None
  end.

Definition sum (ns : list Z) : Z := fold_left Z.add ns 0.

Definition quotient (a b : Z) : value :=
  VFloat (SFdiv 53 1024 (float_of_Z a) (float_of_Z b)).

Definition mean (s : list value) : result value :=
  match ints (filter notnull s) with
  | Some [] => Ok nan
  | Some ns => Ok (quotient (sum ns) (Z.of_nat (List.length ns)))
  | None => Raise TypeError
  end.

Fixpoint insert_sorted {A : Type} (le : A -> A -> bool) (x : A) (l : list A) : list A :=
  match l with
  | [] => [x]
  | y :: l' => if le x y then x :: l else y :: insert_sorted le x l'
  end.

Definition sort {A : Type} (le : A -> A -> bool) (l : list A) : list A :=
  fold_right (insert_sorted le) [] l.

Definition median (s : list value) : result value :=
  match ints (filter notnull s) with
  | Some [] => Ok nan
  | Some ns =>
      let sorted := sort Z.leb ns in
      let n := List.length ns in
      if Nat.even n then
        Ok (quotient (nth (n / 2 - 1) sorted 0 + nth (n / 2) sorted 0) 2)
      else Ok (quotient (nth (n / 2) sorted 0) 1)
  | None => Raise TypeError
  end.

Definition by_name (name : string) : option (list value -> result value) :=
  if String.eqb name "count" then
    Some (fun s => Ok (VInt (Z.of_nat (List.length (filter notnull s)))))
  else if String.eqb name "size" then
    Some (fun s => Ok (VInt (Z.of_nat (List.length s))))
  else if String.eqb name "sum" then
    Some (fun s => match ints (filter notnull s) with
                   | Some ns => Ok (VInt (sum ns))
                   | None => Raise TypeError
                   end)
  else None.

(** Keys in order: text by code, numbers by size; other pairs stay as
    they come. *)
Definition key_le (a b : value) : bool :=
  match a, b with
  | VStr s, VStr t => String.leb s t
  | _, _ => if (is_number a && is_number b)%bool then negb (num_ltb b a) else true
  end.

Lemma insert_sorted_perm {A : Type} (le : A -> A -> bool) (x : A) (l : list A) :
  Permutation (insert_sorted le x l) (x :: l).
Proof.
  induction l as [|y l IH]; simpl.
  - apply Permutation_refl.
  - destruct (le x y).
    + apply Permutation_refl.
    + eapply perm_trans; [apply perm_skip, IH | apply perm_swap].
Qed.

Lemma sort_perm {A : Type} (le : A -> A -> bool) (l : list A) :
  Permutation (sort le l) l.
Proof.
  induction l as [|x l IH]; simpl.
  - apply perm_nil.
  - eapply perm_trans; [apply insert_sorted_perm | apply perm_skip, IH].
Qed.

(** The outer join of [pd.concat(axis=1)] on row labels that are distinct:
    the labels of the first frame, then those only the second has, each
    frame being reindexed to them.  Row labels that are not distinct cannot
    be reindexed. *)
Fixpoint row_at (k : value) (index : list value) (rs : list row) : option row :=
  match index, rs with
  | i :: index', r :: rs' => if same_key k i then Some r else row_at k index' rs'
  | _, _ => None
  end.

Definition int_column (df : DataFrame) (j : nat) : bool :=
  forallb (fun r => match nth j r VNone with
                    | VInt _ => true
                    | _ => false
                    end) (rows df).

(** [df.reindex(labels)], [index] being the row labels of [df]: a label the
    frame does not have gives a row of NaN, and then the columns of
    integers become columns of floats. *)
Definition reindex (labels index : list value) (df : DataFrame) : list row :=
  let found k := row_at k index (rows df) in
  let missing :=
    existsb (fun k => match found k with
                      | Some _ => false
                      | None => true
                      end) labels in
  let as_float (jc : nat * value) : value :=
    match snd jc with
    | VInt n => if (missing && int_column df (fst jc))%bool
                then VFloat (float_of_Z n) else VInt n
    | c => c
    end in
  map (fun k => match found k with
                | Some r => map as_float (combine (seq 0 (List.length r)) r)
                | None => repeat nan (List.length (columns df))
                end) labels.

Definition outer_join (index : list value) (a b : DataFrame)
  : result (list value * DataFrame) :=
  if Nat.eqb (List.length (distinct index)) (List.length index) then
    let right := range_index (List.length (rows b)) in
    let labels :=
      index ++ filter (fun k => negb (existsb (same_key k) index)) right in
    Ok (labels,
        mkFrame (columns a ++ columns b)
                (map (fun rr => fst rr ++ snd rr)
                     (combine (reindex labels index a) (reindex labels right b))))
  else Raise ValueError.

#[export] Instance lib : PyLib := {
  concat_outer := outer_join;
  str_lower := lower;
  py_repr := repr;
  literal_eval := eval_dict;
  series_mean := mean;
  series_median := median;
  object_max := fun _ => Raise TypeError;
  object_min := fun _ => Raise TypeError;
  named_reduction := by_name;
  sort_keys := sort key_le;
  sort_keys_perm := sort_perm key_le
}.

End Lib.

(** ** Statements

    The notions the properties below are stated with. *)

(** The tokens of a response: a string longer than one character is cut at
    its commas, a shorter string and an integer are one token. *)
Definition response_tokens (v : value) : list string :=
  match v with
  | VStr s => if Nat.leb (String.length s) 1 then [s] else split_on comma s
  | VInt n => [str_of_int n]
  | _ => []
  end.

(** The indicators of a response: all 0 for NaN, else 1 under a key exactly
    when the key is one of the tokens. *)
Definition indicators (values_and_labels : list (string * string)) (v : value) : list Z :=
  map (fun kl =>
         if is_nan v then 0
         else if str_in (fst kl) (response_tokens v) then 1 else 0)
      values_and_labels.

(** The responses the splitter is written for. *)
Definition response (v : value) : Prop :=
  v = nan \/ (exists s, v = VStr s) \/ (exists n, v = VInt n).

(** A value that has no length. *)
Definition unsized (v : value) : Prop :=
  v = VNone \/ (exists x, v = VFloat x /\ x <> S754_nan).

(** The cell at position [p] of a row is text. *)
Definition text_at (p : nat) (r : row) : Prop :=
  exists s, nth_error r p = Some (VStr s).

Definition text_cell (p : nat) (r : row) : bool :=
  match nth_error r p with
  | Some (VStr _) => true
  | _ => false
  end.

(** The rows the normalizer emits for one row whose cell at [p] is text:
    one copy per normalized value of the lower-cased cell. *)
Definition copies {py : PyLib} (lookup : list (string * value)) (p : nat) (r : row)
  : list row :=
  match nth_error r p with
  | Some (VStr s) => map (fun n => set_nth p n r) (lookup_matches lookup (str_lower s))
  | _ => []
  end.

(** A cell that is a key of the category map. *)
Definition is_key (d : list (string * string)) (v : value) : bool :=
  match v with
  | VStr s =>
      match dict_get d s with
      | Some _ => true
      | None => false
      end
  | _ => false
  end.

(** A row with the cell at [p] replaced by its group label. *)
Definition relabel (d : list (string * string)) (p : nat) (r : row) : row :=
  match nth_error r p with
  | Some (VStr s) =>
      match dict_get d s with
      | Some g => set_nth p (VStr g) r
      | None => r
      end
  | _ => r
  end.


(** The number a function name spells. *)
Definition cardinal (name : string) : option Z :=
  if String.eqb name "one" then Some 1
  else if String.eqb name "two" then Some 2
  else if String.eqb name "three" then Some 3
  else if String.eqb name "four" then Some 4
  else if String.eqb name "five" then Some 5
  else if String.eqb name "six" then Some 6
  else None.

(** The cells of the first column of a frame, the key column of an
    aggregated table. *)
Definition key_cells (df : DataFrame) : list value :=
  map (fun r => nth 0 r VNone) (rows df).

(** The state of the running table in the loop of [aggregate_data]. *)
Definition keyed (var : string) (keys : list value) (left : DataFrame) : Prop :=
  index_of var (columns left) = Some O
  /\ Forall (fun l => l <> []) (rows left)
  /\ Forall (fun h => In h keys) (key_cells left).

(** What a call may do to the objects of the heap: no row and no row label
    changes, and an object that is not one of [tables] does not change at
    all. *)
Definition unchanged_but (tables : list Call.loc) (w w' : Call.world) : Prop :=
  forall l,
    rows (Call.heap w' l) = rows (Call.heap w l)
    /\ Call.row_labels w' l = Call.row_labels w l
    /\ (~ In l tables -> Call.heap w' l = Call.heap w l).

(** The diagnostic of the normalizer. *)
Definition diagnostic {py : PyLib} (line : string) : Prop :=
  exists v, line = no_entry_message v.

(** The effects of a call with the outcome [r]: it changes no object but
    [tables], prints diagnostics only, none unless [loud], and shows at most
    [loops] progress bars, exactly [loops] when it returns. *)
Definition effect {py : PyLib} {A : Type} (tables : list Call.loc) (loud : bool)
    (loops : nat) (r : result A) (w w' : Call.world) : Prop :=
  unchanged_but tables w w'
  /\ (exists lines,
        Call.console w' = Call.console w ++ lines
        /\ Forall diagnostic lines
        /\ (loud = false -> lines = []))
  /\ (exists shown,
        Call.bars w' = Call.bars w ++ shown
        /\ (List.length shown <= loops)%nat
        /\ (is_ok r = true -> List.length shown = loops)).

Definition preserves {py : PyLib} {A : Type} (tables : list Call.loc)
    (loud : bool) (loops : nat) (m : Call.M A) : Prop :=
  forall w, effect tables loud loops (fst (m w)) w (snd (m w)).




(** A cell that is 0 or 1. *)
Definition binary (c : value) : Prop := c = VInt 0 \/ c = VInt 1.

(** The text holds the character. *)
Fixpoint has_char (c : ascii) (s : string) : bool :=
  match s with
  | EmptyString => false
  | String c' s' => (Ascii.eqb c' c || has_char c s')%bool
  end.

Fixpoint count_char (c : ascii) (s : string) : nat :=
  match s with
  | EmptyString => O
  | String c' s' => ((if Ascii.eqb c' c then 1 else 0) + count_char c s')%nat
  end.

(** Every row has one cell per label. *)
Definition rectangular_frame (df : DataFrame) : Prop :=
  Forall (fun r => List.length r = List.length (columns df)) (rows df).


(** A row with the text at [p] respelled by [g]. *)
Definition respell (g : string -> string) (p : nat) (r : row) : row :=
  match nth_error r p with
  | Some (VStr s) => set_nth p (VStr (g s)) r
  | _ => r
  end.

(** A row of the wide normalization table whose raw string, lower-cased,
    is [k]. *)
Definition raw_is {py : PyLib} (k : string) (r : row) : bool :=
  match r with
  | VStr raw :: _ => String.eqb (str_lower raw) k
  | _ => false
  end.

(** The replacements a row of the wide table gives: its cells after the
    raw string that are not missing. *)
Definition replacements (r : row) : list value :=
  match r with
  | _ :: cells => filter notnull cells
  | [] => []
  end.

(** A row of the wide table with a text raw string and no list. *)
Definition plain_row (r : row) : Prop :=
  exists raw cells, r = VStr raw :: cells /\ Forall (fun c => hashable c = true) cells.





(** ** Sample data *)

Definition float (n : Z) : value := VFloat (Lib.float_of_Z n).

(** Sightings with a missing count and a missing species; the counts are
    floats, as a numeric column with a missing value is. *)
Definition sightings : DataFrame :=
  mkFrame ["species"; "seen"]
          [[VStr "owl"; float 1]; [VStr "owl"; float 3];
           [VStr "hawk"; nan]; [nan; float 3]].


Definition gila_lookup : list (string * value) :=
  [("gha", VStr "gila woodpecker"); ("gha", VStr "gila thrasher")].

Definition sight_labels : list (string * string) :=
  [("1", "morning"); ("3", "evening")].

Definition birds : DataFrame :=
  mkFrame ["species"] [[VStr "owl"]; [VStr "hawk"]].

Definition bird_groups : list (string * string) :=
  [("owl", "raptor"); ("hawk", "raptor")].

(** Objects with the default row labels, nothing printed and no progress
    bar shown. *)
Definition fresh_world (objects : Call.loc -> DataFrame) : Call.world :=
  Call.mkWorld objects [] []
    (fun l => range_index (List.length (rows (objects l)))).

(** A heap with the sightings at 0 and an instruction table at 1. *)
Definition sample_world : Call.world :=
  fresh_world
    (fun l => if Nat.eqb l 1
              then mkFrame ["var"; "fn"] [[VStr "seen"; VStr "three"]]
              else sightings).

Definition observations : DataFrame :=
  mkFrame ["species"; "sight"] [[VStr "Owl"; VStr "1,3"]; [VStr "HAWK"; VStr "3"]].

Definition sight_instructions : list (value * value) :=
  [(VStr "sight", VStr "{'1': 'morning', '3': 'evening'}")].

Definition mixed_organisations : DataFrame :=
  mkFrame ["org"; "n"] [[VStr "GHA"; VInt 5]; [VStr "Zzz"; VInt 1]].

(** A wide normalization table: the second row repeats the raw string of
    the first in another letter case. *)
Definition wide_table : DataFrame :=
  mkFrame ["raw"; "first"; "second"]
          [[VStr "GHA"; VStr "gila woodpecker"; VStr "gila thrasher"];
           [VStr "gha"; VStr "other"; nan];
           [VStr "Owl"; VStr "owl"; nan];
           [VStr "Hawk"; VStr "hawk"; nan]].



(** A heap with observations at 0, the split instructions at 1, the wide
    table at 2 and aggregation instructions at 3. *)
Definition pipeline_objects (l : Call.loc) : DataFrame :=
  match l with
  | 1%nat => mkFrame ["column"; "labels"]
               [[VStr "sight"; VStr "{'1': 'morning', '3': 'evening'}"]]
  | 2%nat => wide_table
  | 3%nat => mkFrame ["column"; "function"]
               [[VStr "morning"; VStr "max"]; [VStr "evening"; VStr "one"]]
  | _ => observations
  end.

Definition pipeline_world : Call.world := fresh_world pipeline_objects.

(** The same objects, the observations being a slice that kept the row
    labels 5 and 6 of the table it was taken from. *)
Definition sliced_world : Call.world :=
  Call.mkWorld pipeline_objects [] []
    (fun l => match l with
              | 0%nat => [VInt 5; VInt 6]
              | _ => range_index (List.length (rows (pipeline_objects l)))
              end).

(** * Properties *)

(** ** Lists and results *)

Lemma mapM_total {A B : Type} (f : A -> result B) (g : A -> B) (l : list A) :
  (forall x, In x l -> f x = Ok (g x)) -> mapM f l = Ok (map g l).
Proof.
  induction l as [|x l IH]; intros H; simpl.
  - reflexivity.
  - rewrite (H x (or_introl eq_refl)). simpl.
    rewrite IH by (intros y Hy; apply H; right; exact Hy).
    reflexivity.
Qed.

Lemma mapM_raise {A B : Type} (f : A -> result B) (g : A -> B) (e : py_error)
    (pre post : list A) (x : A) :
  (forall y, In y pre -> f y = Ok (g y)) -> f x = Raise e ->
  mapM f (pre ++ x :: post) = Raise e.
Proof.
  intros Hpre Hx. induction pre as [|y pre IH]; simpl.
  - rewrite Hx. reflexivity.
  - rewrite (Hpre y (or_introl eq_refl)). simpl.
    rewrite IH by (intros z Hz; apply Hpre; right; exact Hz).
    reflexivity.
Qed.

Lemma mapM_length {A B : Type} (f : A -> result B) (l : list A) (out : list B) :
  mapM f l = Ok out -> List.length out = List.length l.
Proof.
  revert out. induction l as [|x l IH]; simpl; intros out H.
  - injection H as <-. reflexivity.
  - destruct (f x) as [y|e]; simpl in H; [|discriminate].
    destruct (mapM f l) as [ys|e]; simpl in H; [|discriminate].
    injection H as <-. simpl. f_equal. apply IH. reflexivity.
Qed.

Lemma length_set_nth {A : Type} (i : nat) (v : A) (l : list A) :
  List.length (set_nth i v l) = List.length l.
Proof.
  revert i. induction l as [|x l IH]; intros [|i]; simpl; auto.
Qed.

Lemma nth_error_set_nth_eq {A : Type} (i : nat) (v : A) (l : list A) :
  (i < List.length l)%nat -> nth_error (set_nth i v l) i = Some v.
Proof.
  revert i. induction l as [|x l IH]; intros [|i] H; simpl in *; try lia.
  - reflexivity.
  - apply IH. lia.
Qed.

Lemma nth_error_set_nth_neq {A : Type} (i j : nat) (v : A) (l : list A) :
  i <> j -> nth_error (set_nth i v l) j = nth_error l j.
Proof.
  revert i j. induction l as [|x l IH]; intros [|i] [|j] H; simpl; auto.
  congruence.
Qed.

Lemma index_of_nth (k : string) (ks : list string) (i : nat) :
  index_of k ks = Some i -> nth_error ks i = Some k.
Proof.
  revert i. induction ks as [|k' ks IH]; simpl; intros i H.
  - discriminate.
  - destruct (String.eqb_spec k k') as [->|Hne].
    + injection H as <-. reflexivity.
    + destruct (index_of k ks) as [j|]; [|discriminate].
      injection H as <-. simpl. apply IH. reflexivity.
Qed.

Lemma nth_index_of (ks : list string) (i : nat) (k : string) :
  NoDup ks -> nth_error ks i = Some k -> index_of k ks = Some i.
Proof.
  intros Hnd. revert i. induction Hnd as [|k' ks Hnotin Hnd IH]; intros [|i] H; simpl in *.
  - discriminate.
  - discriminate.
  - injection H as ->. rewrite String.eqb_refl. reflexivity.
  - destruct (String.eqb_spec k k') as [->|Hne].
    + exfalso. apply Hnotin. eapply nth_error_In. exact H.
    + rewrite (IH i H). reflexivity.
Qed.

Lemma index_of_In (k : string) (ks : list string) :
  In k ks -> exists i, index_of k ks = Some i.
Proof.
  induction ks as [|k' ks IH]; simpl; intros H.
  - contradiction.
  - destruct (String.eqb_spec k k') as [->|Hne].
    + exists O. reflexivity.
    + destruct H as [->|H]; [congruence|].
      destruct (IH H) as [i ->]. exists (S i). reflexivity.
Qed.

Lemma str_in_In (k : string) (l : list string) : str_in k l = true <-> In k l.
Proof.
  unfold str_in. rewrite existsb_exists. split.
  - intros [x [Hx He]]. apply String.eqb_eq in He. subst. exact Hx.
  - intros H. exists k. split; [exact H | apply String.eqb_refl].
Qed.

(** ** Splitter *)

Section SplitterFacts.
Context {py : PyLib}.

Lemma mark_keys_length (keys toks : list string) (ks : list string) (add : list Z) :
  List.length
    (fold_left
       (fun add key =>
          if str_in key toks then
            match index_of key keys with
            | Some i => set_nth i 1 add
            | None => add
            end
          else add) ks add) = List.length add.
Proof.
  revert add. induction ks as [|a ks IH]; intros add; simpl.
  - reflexivity.
  - rewrite IH. destruct (str_in a toks); [|reflexivity].
    destruct (index_of a keys); [apply length_set_nth | reflexivity].
Qed.

Lemma mark_keys_fold (keys toks : list string) :
  NoDup keys ->
  forall (ks : list string) (add : list Z),
    incl ks keys -> List.length add = List.length keys ->
    forall j k, nth_error keys j = Some k ->
      nth_error
        (fold_left
           (fun add key =>
              if str_in key toks then
                match index_of key keys with
                | Some i => set_nth i 1 add
                | None => add
                end
              else add) ks add) j
      = if (str_in k ks && str_in k toks)%bool then Some 1 else nth_error add j.
Proof.
  intros Hnd ks. induction ks as [|a ks IH]; intros add Hincl Hlen j k Hj.
  - reflexivity.
  - simpl fold_left.
    assert (Hin : In a keys) by (apply Hincl; left; reflexivity).
    assert (Hincl' : incl ks keys) by (intros x Hx; apply Hincl; right; exact Hx).
    destruct (index_of_In a keys Hin) as [i Hi].
    assert (Hlt : (j < List.length add)%nat).
    { rewrite Hlen. apply nth_error_Some. congruence. }
    rewrite Hi.
    rewrite IH with (k := k); auto.
    + assert (Hstr : str_in k (a :: ks) = (String.eqb k a || str_in k ks)%bool)
        by reflexivity.
      rewrite Hstr.
      destruct (String.eqb_spec k a) as [->|Hne]; simpl orb.
      * rewrite (nth_index_of keys j a Hnd Hj) in Hi. injection Hi as <-.
        destruct (str_in a toks) eqn:Hat; destruct (str_in a ks); simpl; auto.
        apply nth_error_set_nth_eq. exact Hlt.
      * destruct (str_in k ks && str_in k toks)%bool; [reflexivity|].
        destruct (str_in a toks); [|reflexivity].
        apply nth_error_set_nth_neq. intros ->.
        apply index_of_nth in Hi. congruence.
    + destruct (str_in a toks); [rewrite length_set_nth|]; exact Hlen.
Qed.

Lemma mark_keys_spec (d : list (string * string)) (toks : list string) :
  NoDup (map fst d) ->
  mark_keys (map fst d) toks (repeat 0 (List.length d))
  = map (fun kl => if str_in (fst kl) toks then 1 else 0) d.
Proof.
  intros Hnd. apply nth_error_ext. intros j.
  destruct (nth_error d j) as [[k lbl]|] eqn:Hd.
  - unfold mark_keys.
    rewrite mark_keys_fold with (k := k); auto.
    + rewrite nth_error_map, Hd. simpl.
      assert (Hin : str_in k (map fst d) = true).
      { apply str_in_In. apply in_map_iff. exists (k, lbl). split; auto.
        eapply nth_error_In. exact Hd. }
      rewrite Hin. simpl. destruct (str_in k toks); [reflexivity|].
      rewrite nth_error_repeat; [reflexivity|].
      apply nth_error_Some. congruence.
    + apply incl_refl.
    + rewrite repeat_length, length_map. reflexivity.
    + rewrite nth_error_map, Hd. reflexivity.
  - rewrite nth_error_map, Hd. simpl.
    apply nth_error_None. unfold mark_keys.
    rewrite mark_keys_length, repeat_length.
    apply nth_error_None. exact Hd.
Qed.

Lemma repeat_zero (d : list (string * string)) :
  repeat 0 (List.length d) = map (fun _ => 0) d.
Proof.
  induction d as [|x d IH]; simpl; [reflexivity | rewrite IH; reflexivity].
Qed.

Lemma split_response_spec (d : list (string * string)) (v : value) :
  NoDup (map fst d) -> response v -> split_response d v = Ok (indicators d v).
Proof.
  intros Hnd [->|[[s ->]|[n ->]]]; unfold split_response, indicators; simpl.
  - rewrite repeat_zero. reflexivity.
  - unfold tokens. simpl.
    destruct (Nat.leb_spec (String.length s) 1) as [Hle|Hgt].
    + replace (1 <? Z.of_nat (String.length s)) with false
        by (symmetry; apply Z.ltb_ge; lia).
      simpl. rewrite mark_keys_spec by exact Hnd. reflexivity.
    + replace (1 <? Z.of_nat (String.length s)) with true
        by (symmetry; apply Z.ltb_lt; lia).
      simpl. rewrite mark_keys_spec by exact Hnd. reflexivity.
  - unfold tokens. simpl. rewrite mark_keys_spec by exact Hnd. reflexivity.
Qed.

Lemma split_response_unsized (d : list (string * string)) (v : value) :
  unsized v -> split_response d v = Raise TypeError.
Proof.
  intros [->|[x [-> Hx]]]; unfold split_response; simpl.
  - reflexivity.
  - destruct x; try reflexivity. congruence.
Qed.

Lemma is_nan_iff (v : value) : is_nan v = true <-> v = nan.
Proof.
  split.
  - destruct v as [| |x| |]; simpl; try discriminate.
    destruct x; try discriminate. reflexivity.
  - intros ->. reflexivity.
Qed.

(** C8: over responses that are text, integers or NaN, and a map with
    distinct keys, [split_categorical_vars] returns the table whose columns
    are the labels of the map in its order and whose rows are, in the order
    of the input, the 0/1 indicators of each response: all 0 for NaN, 1
    under the label of a key exactly when the key is among the tokens of the
    response.  Only the float NaN is missing. *)
Theorem split_categorical_vars_indicators
    (series : list value) (values_and_labels : list (string * string)) :
  NoDup (map fst values_and_labels) ->
  Forall response series ->
  split_categorical_vars series values_and_labels
  = Ok (mkFrame (map snd values_and_labels)
                (map (fun v => map VInt (indicators values_and_labels v)) series))
  /\ List.length (map (fun v => map VInt (indicators values_and_labels v)) series)
     = List.length series
  /\ (forall v, is_nan v = true <-> v = nan)
  /\ is_nan VNone = false.
Proof.
  intros Hnd Hall. split; [|split; [|split]].
  - unfold split_categorical_vars.
    rewrite (mapM_total _ (indicators values_and_labels)).
    + simpl. rewrite map_map. reflexivity.
    + intros v Hv. apply split_response_spec; [exact Hnd|].
      rewrite Forall_forall in Hall. apply Hall. exact Hv.
  - apply length_map.
  - exact is_nan_iff.
  - reflexivity.
Qed.

(** C10, as amended: a response that has no length, [None] or a float that
    is not NaN, makes [split_categorical_vars] raise a [TypeError] at
    [response_length] when the responses before it are text, integers or
    NaN; a list has a length and does not raise there; only the float NaN
    is skipped as missing. *)
Theorem split_categorical_vars_unsized
    (pre post : list value) (v : value) (values_and_labels : list (string * string)) :
  NoDup (map fst values_and_labels) ->
  Forall response pre ->
  unsized v ->
  response_length v = Raise TypeError
  /\ split_categorical_vars (pre ++ v :: post) values_and_labels = Raise TypeError
  /\ (forall l, response_length (VList l) = Ok (Z.of_nat (List.length l)))
  /\ (forall u, is_nan u = true <-> u = nan).
Proof.
  intros Hnd Hpre Hv. split; [|split; [|split]].
  - destruct Hv as [->|[x [-> _]]]; reflexivity.
  - unfold split_categorical_vars.
    rewrite (mapM_raise _ (indicators values_and_labels) TypeError).
    + reflexivity.
    + intros u Hu. apply split_response_spec; [exact Hnd|].
      rewrite Forall_forall in Hpre. apply Hpre. exact Hu.
    + apply split_response_unsized. exact Hv.
  - reflexivity.
  - exact is_nan_iff.
Qed.

End SplitterFacts.

(** ** Normalizer *)

Section NormalizerFacts.
Context {py : PyLib}.

Lemma replace_copies (r : row) (ms : list value) (p : nat) :
  (p < List.length r)%nat ->
  replace r ms p = Ok (map (fun n => set_nth p n r) ms).
Proof.
  intros Hp. unfold replace. apply mapM_total. intros n _.
  unfold series_set. apply Nat.ltb_lt in Hp. rewrite Hp. reflexivity.
Qed.

Lemma text_at_lt (p : nat) (r : row) : text_at p r -> (p < List.length r)%nat.
Proof.
  intros [s Hs]. apply nth_error_Some. congruence.
Qed.

Lemma text_cell_iff (p : nat) (r : row) : text_cell p r = true <-> text_at p r.
Proof.
  unfold text_cell, text_at. split.
  - destruct (nth_error r p) as [[s| | | |]|]; try discriminate. eauto.
  - intros [s ->]. reflexivity.
Qed.

Lemma normalize_loop_text (data : DataFrame) (lookup : list (string * value))
    (var : string) (p : nat) :
  index_of var (columns data) = Some p ->
  forall (todo acc : list row) (out : list string),
    Forall (text_at p) todo ->
    outcome (normalize_loop data lookup var todo acc out)
    = Ok (acc ++ flat_map (copies lookup p) todo).
Proof.
  intros Hp todo. induction todo as [|r todo IH]; intros acc out Hall; simpl.
  - rewrite app_nil_r. reflexivity.
  - inversion Hall as [|? ? Hr Hrest]; subst.
    pose proof (text_at_lt p r Hr) as Hlt.
    destruct Hr as [s Hs].
    unfold loc_cell, get_loc. rewrite Hp. simpl. rewrite Hs. simpl.
    unfold copies at 1. rewrite Hs.
    destruct (lookup_matches lookup (str_lower s)) as [|m ms] eqn:Hm.
    + simpl. apply IH. exact Hrest.
    + cbn [List.length Nat.eqb]. rewrite replace_copies by exact Hlt.
      rewrite IH by exact Hrest. rewrite <- app_assoc. reflexivity.
Qed.

Lemma normalize_loop_raise (data : DataFrame) (lookup : list (string * value))
    (var : string) (p : nat) :
  index_of var (columns data) = Some p ->
  forall (todo acc : list row) (out : list string),
    Forall (fun r => (p < List.length r)%nat) todo ->
    existsb (fun r => negb (text_cell p r)) todo = true ->
    outcome (normalize_loop data lookup var todo acc out) = Raise AttributeError.
Proof.
  intros Hp todo. induction todo as [|r todo IH]; intros acc out Hlen Hex; simpl in *.
  - discriminate.
  - inversion Hlen as [|? ? Hlt Hrest]; subst.
    unfold loc_cell, get_loc. rewrite Hp. simpl.
    destruct (nth_error r p) as [v|] eqn:Hv.
    + unfold text_cell in Hex. rewrite Hv in Hex.
      destruct v as [s| | | |]; simpl in *; try reflexivity.
      destruct (lookup_matches lookup (str_lower s)) as [|m ms].
      * simpl. apply IH; assumption.
      * cbn [List.length Nat.eqb]. rewrite replace_copies by exact Hlt.
        apply IH; assumption.
    + apply nth_error_None in Hv. lia.
Qed.

Lemma wf_frame_lt (data : DataFrame) (var : string) (p : nat) :
  wf_frame data -> index_of var (columns data) = Some p ->
  Forall (fun r => (p < List.length r)%nat) (rows data).
Proof.
  intros [_ Hrect] Hp. apply index_of_nth in Hp.
  assert (Hlt : (p < List.length (columns data))%nat)
    by (apply nth_error_Some; congruence).
  apply Forall_forall. intros r Hr.
  rewrite Forall_forall in Hrect. rewrite (Hrect r Hr). exact Hlt.
Qed.

(** C1, at an input: a row whose value has no entry in the lookup is
    reported with the message that the original is kept, and is missing
    from the result. *)
Theorem normalize_data_unmatched_row_lost :
  normalize_data (py := Lib.lib)
    (mkFrame ["org"; "n"] [[VStr "Zzz"; VInt 1]])
    [("gha", VStr "gila woodpecker")] "org"
  = mkRun ["No entry found for Zzz in normalization_info. Keep original version."]
          (Ok (mkFrame ["org"; "n"] [])).
Proof. reflexivity. Qed.


(** C9: with a row whose target value is not text, NaN included,
    [normalize_data] raises, the value having no [lower]; it returns a
    table exactly on the data whose target column is text in every row. *)
Theorem normalize_data_text_only
    (data : DataFrame) (lookup : list (string * value)) (var : string) (p : nat) :
  wf_frame data ->
  index_of var (columns data) = Some p ->
  ((exists r v, In r (rows data) /\ nth_error r p = Some v
                /\ (forall s, v <> VStr s)) ->
   outcome (normalize_data data lookup var) = Raise AttributeError)
  /\ ((forall r, In r (rows data) -> text_at p r) ->
      exists out, outcome (normalize_data data lookup var) = Ok out)
  /\ py_lower nan = Raise AttributeError.
Proof.
  intros Hwf Hp. split; [|split].
  - intros [r [v [Hr [Hv Hnot]]]]. unfold normalize_data. simpl.
    rewrite (normalize_loop_raise data lookup var p Hp).
    + reflexivity.
    + apply wf_frame_lt with (var := var); assumption.
    + apply existsb_exists. exists r. split; [exact Hr|].
      unfold text_cell. rewrite Hv.
      destruct v; try reflexivity. exfalso. eapply Hnot. reflexivity.
  - intros Htext. unfold normalize_data. simpl.
    rewrite (normalize_loop_text data lookup var p Hp).
    + eexists. reflexivity.
    + apply Forall_forall. exact Htext.
  - reflexivity.
Qed.

End NormalizerFacts.

(** ** Category remapper *)

Lemma mapM_first_raise {A B : Type} (f : A -> result B) (l : list A) :
  (exists x, In x l /\ is_ok (f x) = false) ->
  exists x e, In x l /\ f x = Raise e /\ mapM f l = Raise e.
Proof.
  induction l as [|y l IH]; intros [x [Hx Hf]].
  - contradiction.
  - simpl. destruct (f y) as [b|e] eqn:Hy.
    + destruct Hx as [->|Hx]; [rewrite Hy in Hf; discriminate|].
      destruct IH as [x' [e [Hin [He Hm]]]]; [exists x; auto|].
      exists x', e. split; [right; exact Hin|]. split; [exact He|].
      simpl. rewrite Hm. reflexivity.
    + exists y, e. split; [left; reflexivity|]. split; [exact Hy | reflexivity].
Qed.

Lemma remap_row_cell (data : DataFrame) (column : string)
    (d : list (string * string)) (p : nat) (r : row) (v : value) :
  index_of column (columns data) = Some p ->
  nth_error r p = Some v ->
  remap_row data column d r
  = match dict_getitem d v with
    | Ok g => Ok (set_nth p (VStr g) r)
    | Raise e => Raise e
    end.
Proof.
  intros Hp Hv. unfold remap_row, loc_cell, get_loc. rewrite Hp. simpl.
  rewrite Hv. simpl. destruct (dict_getitem d v); reflexivity.
Qed.

(** C5, as amended: with a value in the remapped column that is not a key
    of the map, [repl_with_agg_string] fails and returns no table: with a
    [KeyError] when the column holds no list, else with a [KeyError] or the
    [TypeError] of an unhashable key.  When every value is a key, every
    value of the column is replaced by its group label. *)
Theorem repl_with_agg_string_total_map
    (data : DataFrame) (column : string) (d : list (string * string)) (p : nat) :
  wf_frame data ->
  index_of column (columns data) = Some p ->
  ((exists r v, In r (rows data) /\ nth_error r p = Some v /\ is_key d v = false) ->
   exists e, repl_with_agg_string data column d = Raise e
             /\ (e = KeyError \/ e = TypeError)
             /\ ((forall r l, In r (rows data) -> nth_error r p <> Some (VList l)) ->
                 e = KeyError))
  /\ ((forall r, In r (rows data) ->
         exists s g, nth_error r p = Some (VStr s) /\ dict_get d s = Some g) ->
      repl_with_agg_string data column d
      = Ok (mkFrame (columns data) (map (relabel d p) (rows data)))).
Proof.
  intros Hwf Hp. split.
  - intros [r [v [Hr [Hv Hkey]]]].
    destruct (mapM_first_raise (remap_row data column d) (rows data)) as [x [e [Hx [He Hm]]]].
    { exists r. split; [exact Hr|].
      rewrite (remap_row_cell data column d p r v Hp Hv).
      destruct v as [s| | | |]; simpl in *; try reflexivity.
      destruct (dict_get d s); [discriminate | reflexivity]. }
    exists e. unfold repl_with_agg_string. rewrite Hm. split; [reflexivity|].
    pose proof (wf_frame_lt data column p Hwf Hp) as Hlt.
    rewrite Forall_forall in Hlt. specialize (Hlt x Hx).
    destruct (nth_error x p) as [u|] eqn:Hu; [|apply nth_error_None in Hu; lia].
    rewrite (remap_row_cell data column d p x u Hp Hu) in He.
    destruct u as [s| | | |l]; simpl in He.
    + destruct (dict_get d s); [discriminate|].
      injection He as <-. split; [left; reflexivity | intros _; reflexivity].
    + injection He as <-. split; [left; reflexivity | intros _; reflexivity].
    + injection He as <-. split; [left; reflexivity | intros _; reflexivity].
    + injection He as <-. split; [left; reflexivity | intros _; reflexivity].
    + injection He as <-. split; [right; reflexivity|].
      intros Hnolist. exfalso. apply (Hnolist x l Hx). exact Hu.
  - intros Hall. unfold repl_with_agg_string.
    rewrite (mapM_total _ (relabel d p)); [reflexivity|].
    intros r Hr. destruct (Hall r Hr) as [s [g [Hs Hg]]].
    rewrite (remap_row_cell data column d p r (VStr s) Hp Hs).
    unfold relabel. rewrite Hs. simpl. rewrite Hg. reflexivity.
Qed.

(** ** Reductions *)

Section ReducerFacts.
Context {py : PyLib}.

Lemma float_dtype_cleared_true (c : value -> bool) (z : spec_float) (l : list value) :
  forallb is_float l = true ->
  forallb is_float (map (fun v => if c v then VFloat z else v) l) = true.
Proof.
  induction l as [|x l IH]; simpl; intros H; [reflexivity|].
  apply andb_true_iff in H. destruct H as [Hx Hl].
  rewrite (IH Hl). destruct (c x); simpl; [reflexivity | rewrite Hx; reflexivity].
Qed.

Lemma float_dtype_cleared_false (c : value -> bool) (z : Z) (l : list value) :
  forallb is_float l = false ->
  forallb is_float (map (fun v => if c v then VInt z else v) l) = false.
Proof.
  induction l as [|x l IH]; simpl; intros H; [discriminate|].
  destruct (c x); simpl; [reflexivity|].
  destruct (is_float x); simpl in *; [apply IH; exact H | reflexivity].
Qed.

Lemma float_dtype_clear_unequal (n : Z) (s : list value) :
  float_dtype (clear_unequal n s) = float_dtype s.
Proof.
  unfold clear_unequal, stored_bit.
  change float_dtype with (forallb is_float).
  destruct (forallb is_float s) eqn:Hs.
  - apply float_dtype_cleared_true with (c := fun v => negb (eq_int v n)). exact Hs.
  - apply float_dtype_cleared_false with (c := fun v => negb (eq_int v n)). exact Hs.
Qed.

Lemma eq_int_stored_bit (s : list value) (b : bool) :
  eq_int (stored_bit s b) 1 = b /\ eq_int (stored_bit s b) 0 = negb b.
Proof.
  unfold stored_bit. destruct (float_dtype s); destruct b; split; reflexivity.
Qed.

Lemma eq_int_stored_zero (s : list value) (n : Z) :
  n <> 0 -> eq_int (stored_bit s false) n = false.
Proof.
  intros Hn. unfold stored_bit.
  destruct (float_dtype s); destruct n; simpl; congruence.
Qed.

Lemma set_equal_clear_unequal (n : Z) (s : list value) :
  n <> 0 ->
  set_equal n (clear_unequal n s) = map (fun v => stored_bit s (eq_int v n)) s.
Proof.
  intros Hn. unfold set_equal.
  assert (Hbit : forall b, stored_bit (clear_unequal n s) b = stored_bit s b).
  { intros b. unfold stored_bit. rewrite float_dtype_clear_unequal. reflexivity. }
  rewrite Hbit. unfold clear_unequal at 1. rewrite map_map.
  apply map_ext. intros v.
  destruct (eq_int v n) eqn:Hv; simpl.
  - rewrite Hv. reflexivity.
  - rewrite (eq_int_stored_zero s n Hn). reflexivity.
Qed.

Lemma num_max_stored_bit (s : list value) (a b : bool) :
  num_max (stored_bit s a) (stored_bit s b) = stored_bit s (a || b).
Proof.
  unfold stored_bit. destruct (float_dtype s); destruct a; destruct b; reflexivity.
Qed.

Lemma fold_num_max_bits (s : list value) (bs : list bool) (b0 : bool) :
  fold_left num_max (map (stored_bit s) bs) (stored_bit s b0)
  = stored_bit s (b0 || existsb (fun b => b) bs).
Proof.
  revert b0. induction bs as [|b bs IH]; intros b0; simpl.
  - rewrite orb_false_r. reflexivity.
  - rewrite num_max_stored_bit, IH, orb_assoc. reflexivity.
Qed.

Lemma stored_bit_number (s : list value) (b : bool) :
  notnull (stored_bit s b) = true /\ is_number (stored_bit s b) = true.
Proof.
  unfold stored_bit. destruct (float_dtype s); destruct b; split; reflexivity.
Qed.

Lemma series_max_bits (s : list value) (bs : list bool) :
  bs <> [] ->
  series_max (map (stored_bit s) bs) = Ok (stored_bit s (existsb (fun b => b) bs)).
Proof.
  intros Hne. unfold series_max.
  assert (Hfilter : filter notnull (map (stored_bit s) bs) = map (stored_bit s) bs).
  { clear Hne. induction bs as [|b bs IH]; simpl; [reflexivity|].
    rewrite (proj1 (stored_bit_number s b)), IH. reflexivity. }
  rewrite Hfilter.
  assert (Hnum : forallb is_number (map (stored_bit s) bs) = true).
  { apply forallb_forall. intros v Hv. apply in_map_iff in Hv.
    destruct Hv as [b [<- _]]. apply stored_bit_number. }
  rewrite Hnum. destruct bs as [|b bs]; [congruence|].
  simpl. rewrite fold_num_max_bits. reflexivity.
Qed.

Lemma custom_equals_bit (n : Z) (s : list value) :
  n <> 0 -> s <> [] ->
  custom_equals n s = Ok (stored_bit s (existsb (fun v => eq_int v n) s)).
Proof.
  intros Hn Hs. unfold custom_equals.
  rewrite (set_equal_clear_unequal n s Hn).
  rewrite <- (map_map (fun v => eq_int v n) (stored_bit s)).
  rewrite series_max_bits.
  - f_equal. f_equal. clear Hs. induction s as [|v s IH]; simpl; [reflexivity|].
    rewrite IH. reflexivity.
  - destruct s; [congruence | discriminate].
Qed.

End ReducerFacts.

(** ** Keys and groups *)

Lemma same_key_refl (a : value) : same_key a a = true.
Proof.
  unfold same_key. destruct (key_eq_dec (key_of a) (key_of a)); congruence.
Qed.

Lemma same_key_eq (a b : value) : same_key a b = true <-> key_of a = key_of b.
Proof.
  unfold same_key. destruct (key_eq_dec (key_of a) (key_of b)); split; congruence.
Qed.

Lemma same_key_sym (a b : value) : same_key a b = same_key b a.
Proof.
  unfold same_key.
  destruct (key_eq_dec (key_of a) (key_of b)), (key_eq_dec (key_of b) (key_of a));
    congruence.
Qed.

Lemma same_key_trans (a b c : value) :
  same_key a b = true -> same_key a c = same_key b c.
Proof.
  intros H. apply same_key_eq in H. unfold same_key. rewrite H. reflexivity.
Qed.

Lemma is_null_key (v : value) : is_null v = key_null (key_of v).
Proof.
  destruct v as [s|n|x| |l]; simpl; try reflexivity.
  - destruct n; simpl; try reflexivity;
      unfold num_key; destruct (strip _ _); reflexivity.
  - destruct x; simpl; try reflexivity.
    unfold num_key; destruct (strip _ _); reflexivity.
Qed.

Lemma same_key_null (a b : value) : same_key a b = true -> is_null a = is_null b.
Proof.
  intros H. apply same_key_eq in H. rewrite !is_null_key, H. reflexivity.
Qed.

Lemma distinct_In (x : value) (l : list value) : In x (distinct l) -> In x l.
Proof.
  induction l as [|y l IH]; simpl; [auto|].
  intros [->|H]; [left; reflexivity|].
  apply filter_In in H. right. apply IH. apply H.
Qed.

Lemma filter_none {A : Type} (f : A -> bool) (l : list A) :
  (forall x, In x l -> f x = false) -> filter f l = [].
Proof.
  induction l as [|x l IH]; simpl; intros H; [reflexivity|].
  rewrite (H x (or_introl eq_refl)). apply IH. intros y Hy. apply H. right. exact Hy.
Qed.

Lemma filter_filter_same {A : Type} (f g : A -> bool) (l : list A) :
  (forall x, f x = true -> g x = true) ->
  filter f (filter g l) = filter f l.
Proof.
  intros H. induction l as [|x l IH]; simpl; [reflexivity|].
  destruct (g x) eqn:Hg; simpl.
  - rewrite IH. reflexivity.
  - destruct (f x) eqn:Hf; [rewrite (H x Hf) in Hg; discriminate | exact IH].
Qed.

(** Every key of a list has exactly one representative among the distinct
    cells. *)
Lemma distinct_one (h : value) (l : list value) :
  (exists y, In y l /\ same_key h y = true) ->
  List.length (filter (same_key h) (distinct l)) = 1%nat.
Proof.
  induction l as [|x l IH]; intros [y [Hy Hhy]]; [contradiction|].
  simpl. destruct (same_key h x) eqn:Hhx.
  - simpl. f_equal. rewrite filter_none; [reflexivity|].
    intros z Hz. apply filter_In in Hz. destruct Hz as [_ Hz].
    rewrite (same_key_trans h x z Hhx).
    destruct (same_key x z); [discriminate | reflexivity].
  - rewrite filter_filter_same.
    + apply IH. destruct Hy as [->|Hy]; [congruence|]. exists y. auto.
    + intros z Hz. destruct (same_key x z) eqn:Hxz; [|reflexivity].
      rewrite (same_key_trans h z x Hz) in Hhx.
      rewrite same_key_sym in Hhx. congruence.
Qed.

Lemma filter_perm {A : Type} (f : A -> bool) (l l' : list A) :
  Permutation l l' -> Permutation (filter f l) (filter f l').
Proof.
  induction 1 as [|x l l' _ IH|x y l|l l' l'' _ IH1 _ IH2]; simpl.
  - apply perm_nil.
  - destruct (f x); [apply perm_skip|]; exact IH.
  - destruct (f x), (f y); try apply Permutation_refl. apply perm_swap.
  - eapply perm_trans; eassumption.
Qed.

Section GroupFacts.
Context {py : PyLib}.

Lemma column_values_length (df : DataFrame) (label : string) (col : list value) :
  column_values df label = Ok col -> List.length col = List.length (rows df).
Proof.
  unfold column_values. destruct (get_loc df label); simpl; [|discriminate].
  apply mapM_length.
Qed.

Lemma group_values_nonempty (keys vals : list value) (k : value) :
  List.length keys = List.length vals -> In k keys -> group_values keys vals k <> [].
Proof.
  unfold group_values. revert vals.
  induction keys as [|x keys IH]; intros [|v vals] Hlen Hin; simpl in *;
    try contradiction; try discriminate.
  destruct Hin as [->|Hin].
  - rewrite same_key_refl. discriminate.
  - destruct (same_key k x); [discriminate|]. apply IH; [lia | exact Hin].
Qed.

Lemma group_keys_In (keys ks : list value) (k : value) :
  group_keys keys = Ok ks -> In k ks -> In k keys /\ notnull k = true.
Proof.
  unfold group_keys. destruct (forallb hashable keys); [|discriminate].
  intros H Hk. injection H as <-.
  apply (Permutation_in k (sort_keys_perm _)) in Hk.
  apply distinct_In in Hk. apply filter_In in Hk. exact Hk.
Qed.

Lemma resolve_cardinal (name : string) (n : Z) :
  cardinal name = Some n ->
  resolve (VStr name) = Callable (custom_equals n) /\ 1 <= n <= 6.
Proof.
  unfold cardinal.
  repeat match goal with
         | |- context [String.eqb name ?c] =>
             destruct (String.eqb_spec name c) as [->|_];
             [intros H; injection H as <-; split; [reflexivity | lia]|]
         end.
  discriminate.
Qed.



(** C6: for the function names [one] to [six], spelling [n], the result of
    every group is 1 when a row of the group holds a value equal to the
    integer [n] and 0 otherwise, stored as the series stores it; a missing
    value never equals [n], so a group of missing values yields 0. *)
Theorem aggregate_col_cardinal
    (data : DataFrame) (gcol c name : string) (n : Z) (keys vals : list value) :
  cardinal name = Some n ->
  column_values data gcol = Ok keys ->
  column_values data c = Ok vals ->
  forallb hashable keys = true ->
  aggregate_col data gcol (VStr c) (VStr name)
  = Ok (mkAggCol gcol c
          (map (fun k =>
                  let group := group_values keys vals k in
                  (k, stored_bit group (existsb (fun v => eq_int v n) group)))
               (sort_keys (distinct (filter notnull keys)))))
  /\ (forall s b, eq_int (stored_bit s b) 1 = b /\ eq_int (stored_bit s b) 0 = negb b)
  /\ (forall z, eq_int (VInt z) n = (z =? n))
  /\ (forall v, is_null v = true -> eq_int v n = false)
  /\ (forall group, forallb is_null group = true ->
        existsb (fun v => eq_int v n) group = false).
Proof.
  intros Hname Hkeys Hvals Hhash.
  destruct (resolve_cardinal name n Hname) as [Hres Hn].
  assert (Hnull : forall v, is_null v = true -> eq_int v n = false).
  { intros v Hv. destruct v as [| |x| |]; simpl in *; try discriminate; try reflexivity.
    destruct x; simpl in *; try discriminate; reflexivity. }
  split; [|split; [|split; [|split]]].
  - unfold aggregate_col. rewrite Hres, Hkeys. simpl. rewrite Hvals. simpl.
    unfold groupby_agg.
    assert (Hks : group_keys keys = Ok (sort_keys (distinct (filter notnull keys)))).
    { unfold group_keys. rewrite Hhash. reflexivity. }
    rewrite Hks. simpl.
    rewrite (mapM_total _
               (fun k => (k, stored_bit (group_values keys vals k)
                               (existsb (fun v => eq_int v n) (group_values keys vals k))))).
    + reflexivity.
    + intros k Hk. rewrite custom_equals_bit; [reflexivity | lia |].
      apply group_values_nonempty.
      * rewrite (column_values_length data gcol keys Hkeys).
        rewrite (column_values_length data c vals Hvals). reflexivity.
      * apply (group_keys_In keys _ k Hks Hk).
  - apply eq_int_stored_bit.
  - reflexivity.
  - exact Hnull.
  - intros group Hall. induction group as [|v group IH]; simpl in *; [reflexivity|].
    apply andb_true_iff in Hall. destruct Hall as [Hv Hg].
    rewrite (Hnull v Hv), (IH Hg). reflexivity.
Qed.


End GroupFacts.

(** ** Aggregation *)

Lemma mapM_ok_each {A B : Type} (f : A -> result B) (l : list A) (out : list B) :
  mapM f l = Ok out -> forall x, In x l -> exists y, f x = Ok y.
Proof.
  revert out. induction l as [|a l IH]; simpl; intros out H x Hx; [contradiction|].
  destruct (f a) as [b|e] eqn:Ha; simpl in H; [|discriminate].
  destruct (mapM f l) as [bs|e] eqn:Hl; simpl in H; [|discriminate].
  destruct Hx as [<-|Hx]; [eauto | eapply IH; eauto].
Qed.

Lemma mapM_ext_in {A B : Type} (f g : A -> result B) (l : list A) :
  (forall x, In x l -> f x = g x) -> mapM f l = mapM g l.
Proof.
  induction l as [|a l IH]; simpl; intros H; [reflexivity|].
  rewrite (H a (or_introl eq_refl)), IH; [reflexivity|].
  intros x Hx. apply H. right. exact Hx.
Qed.

Lemma mapM_map {A B C : Type} (f : B -> result C) (h : A -> B) (l : list A) :
  mapM f (map h l) = mapM (fun x => f (h x)) l.
Proof.
  induction l as [|a l IH]; simpl; [reflexivity | rewrite IH; reflexivity].
Qed.

Lemma mapM_keyed {A B : Type} (g : A -> result B) (l : list A) (out : list (A * B)) :
  mapM (fun k => v <- g k ;; Ok (k, v)) l = Ok out -> map fst out = l.
Proof.
  revert out. induction l as [|a l IH]; simpl; intros out H.
  - injection H as <-. reflexivity.
  - destruct (g a) as [b|e]; simpl in H; [|discriminate].
    destruct (mapM _ l) as [bs|e] eqn:Hl; simpl in H; [|discriminate].
    injection H as <-. simpl. f_equal. apply IH. reflexivity.
Qed.

Lemma filter_fst_length {A B : Type} (f : A -> bool) (l : list (A * B)) :
  List.length (filter (fun kv => f (fst kv)) l) = List.length (filter f (map fst l)).
Proof.
  induction l as [|[a b] l IH]; simpl; [reflexivity|].
  destruct (f a); simpl; rewrite IH; reflexivity.
Qed.

Lemma filter_idem {A : Type} (f : A -> bool) (l : list A) :
  filter f (filter f l) = filter f l.
Proof.
  apply filter_filter_same. auto.
Qed.

Lemma index_of_app (k : string) (l l' : list string) (i : nat) :
  index_of k l = Some i -> index_of k (l ++ l') = Some i.
Proof.
  revert i. induction l as [|x l IH]; simpl; intros i H; [discriminate|].
  destruct (String.eqb k x); [exact H|].
  destruct (index_of k l) as [j|]; [|discriminate].
  rewrite (IH j eq_refl). exact H.
Qed.

Lemma index_of_head (k : string) (l : list string) :
  index_of k l = Some O -> exists l', l = k :: l'.
Proof.
  destruct l as [|x l]; simpl; [discriminate|].
  destruct (String.eqb_spec k x) as [->|_]; [eauto|].
  destruct (index_of k l); discriminate.
Qed.

Lemma combine_map_self {A B : Type} (f : A -> B) (l : list A) :
  combine l (map f l) = map (fun x => (x, f x)) l.
Proof.
  induction l as [|a l IH]; simpl; [reflexivity | rewrite IH; reflexivity].
Qed.

Section AggregateFacts.
Context {py : PyLib}.

Lemma aggregate_col_index (dat : DataFrame) (var : string) (v f : value)
    (keys : list value) (c : AggCol) :
  column_values dat var = Ok keys ->
  aggregate_col dat var v f = Ok c ->
  map fst (agg_rows c) = sort_keys (distinct (filter notnull keys))
  /\ agg_index_name c = var.
Proof.
  intros Hkeys. unfold aggregate_col. rewrite Hkeys. simpl.
  destruct (label_of v) as [label|e]; simpl; [|discriminate].
  destruct (column_values dat label) as [vals|e]; simpl; [|discriminate].
  destruct (agg_callable (resolve f)) as [g|e]; simpl; [|discriminate].
  unfold groupby_agg, group_keys.
  destruct (forallb hashable keys); simpl; [|discriminate].
  destruct (mapM _ _) as [reduced|e] eqn:Hm; simpl; [|discriminate].
  intros H. injection H as <-. simpl. split; [|reflexivity].
  apply (mapM_keyed _ _ _ Hm).
Qed.

(** The cells an aggregated column joins to a key. *)
Lemma merge_matches (keys : list value) (right : list (value * value)) (h : value) :
  map fst right = sort_keys (distinct (filter notnull keys)) ->
  In h keys ->
  List.length (filter (fun kv => same_key h (fst kv)) right)
  = if notnull h then 1%nat else 0%nat.
Proof.
  intros Hright Hin. rewrite (filter_fst_length (same_key h)), Hright.
  rewrite (Permutation_length (filter_perm (same_key h) _ _ (sort_keys_perm _))).
  destruct (notnull h) eqn:Hh.
  - apply distinct_one. exists h. split; [|apply same_key_refl].
    apply filter_In. split; assumption.
  - rewrite filter_none; [reflexivity|].
    intros y Hy. apply distinct_In in Hy. apply filter_In in Hy.
    destruct Hy as [_ Hy]. destruct (same_key h y) eqn:Hs; [|reflexivity].
    apply same_key_null in Hs. unfold notnull in *.
    rewrite Hs in Hh. rewrite Hh in Hy. discriminate.
Qed.

Lemma merge_keyed (var : string) (keys : list value) (left out : DataFrame)
    (c : AggCol) :
  keyed var keys left ->
  map fst (agg_rows c) = sort_keys (distinct (filter notnull keys)) ->
  merge left c var = Ok out ->
  keyed var keys out /\ key_cells out = filter notnull (key_cells left).
Proof.
  intros [Hidx [Hne Hin]] Hright. unfold merge, get_loc. rewrite Hidx. simpl.
  destruct (String.eqb (agg_index_name c) var); simpl; [|discriminate].
  destruct (String.eqb_spec (agg_label c) var) as [|Hlabel]; [discriminate|].
  intros H. injection H as <-.
  destruct (index_of_head var (columns left) Hidx) as [cols Hcols].
  unfold keyed, key_cells in *. simpl.
  assert (Hrows :
    forall rs, Forall (fun l => l <> []) rs ->
      Forall (fun h => In h keys) (map (fun r => nth 0 r VNone) rs) ->
      Forall (fun l => l <> [])
        (flat_map (fun l => map (fun kv => l ++ [snd kv])
                     (filter (fun kv => same_key (nth 0 l VNone) (fst kv)) (agg_rows c))) rs)
      /\ map (fun r => nth 0 r VNone)
           (flat_map (fun l => map (fun kv => l ++ [snd kv])
                        (filter (fun kv => same_key (nth 0 l VNone) (fst kv)) (agg_rows c))) rs)
         = filter notnull (map (fun r => nth 0 r VNone) rs)).
  { induction rs as [|l rs IH]; simpl; intros Hn Hk; [split; [constructor | reflexivity]|].
    inversion Hn as [|? ? Hl Hn']; subst. inversion Hk as [|? ? Hh Hk']; subst.
    destruct (IH Hn' Hk') as [IH1 IH2].
    pose proof (merge_matches keys (agg_rows c) (nth 0 l VNone) Hright Hh) as Hlen.
    destruct l as [|h l]; [congruence|]. simpl in *.
    destruct (filter (fun kv => same_key h (fst kv)) (agg_rows c)) as [|kv [|kv' more]];
      destruct (notnull h); simpl in Hlen; try discriminate; simpl.
    - split; assumption.
    - split; [constructor; [discriminate | exact IH1] | rewrite IH2; reflexivity]. }
  destruct (Hrows (rows left) Hne Hin) as [H1 H2].
  split; [split; [|split]|].
  - rewrite Hcols. simpl.
    destruct (String.eqb_spec var (agg_label c)) as [Heq|_]; [congruence|].
    rewrite andb_false_r. simpl. rewrite String.eqb_refl. reflexivity.
  - exact H1.
  - rewrite H2. apply Forall_forall. intros h Hh. apply filter_In in Hh.
    rewrite Forall_forall in Hin. apply Hin. apply Hh.
  - exact H2.
Qed.

Lemma aggregate_loop_keys (dat : DataFrame) (var : string) (keys : list value) :
  column_values dat var = Ok keys ->
  forall (info : list (value * value)) (left out : DataFrame),
    keyed var keys left ->
    aggregate_loop dat var info left = Ok out ->
    keyed var keys out
    /\ key_cells out = match info with
                       | [] => key_cells left
                       | _ :: _ => filter notnull (key_cells left)
                       end.
Proof.
  intros Hkeys info. induction info as [|[v f] info IH]; intros left out Hleft; simpl.
  - intros H. injection H as <-. split; [exact Hleft | reflexivity].
  - destruct (aggregate_col dat var v f) as [c|e] eqn:Hc; simpl; [|discriminate].
    destruct (merge left c var) as [m|e] eqn:Hm; simpl; [|discriminate].
    intros Hout.
    destruct (aggregate_col_index dat var v f keys c Hkeys Hc) as [Hright _].
    destruct (merge_keyed var keys left m c Hleft Hright Hm) as [Hkm Hcells].
    destruct (IH m out Hkm Hout) as [Hko Hcells'].
    split; [exact Hko|]. rewrite Hcells'.
    destruct info; rewrite Hcells; [reflexivity | apply filter_idem].
Qed.

Lemma column_values_concat (dat extra : DataFrame) (g : row -> row)
    (var : string) (keys : list value) :
  rows extra = map g (rows dat) ->
  column_values dat var = Ok keys ->
  column_values (concat_columns dat extra) var = Ok keys.
Proof.
  intros Hextra. unfold column_values, get_loc, concat_columns. simpl.
  destruct (index_of var (columns dat)) as [i|] eqn:Hi; simpl; [|discriminate].
  rewrite (index_of_app var _ (columns extra) i Hi). simpl.
  intros Hm. rewrite <- Hm. rewrite Hextra, combine_map_self, map_map, mapM_map.
  apply mapM_ext_in. intros r Hr. simpl.
  destruct (mapM_ok_each _ _ _ Hm r Hr) as [v Hv].
  unfold loc_cell, get_loc in *. simpl in *.
  rewrite Hi in Hv. rewrite Hi. rewrite (index_of_app var _ (columns extra) i Hi).
  simpl in *. destruct (nth_error r i) as [u|] eqn:Hu; [|discriminate].
  rewrite nth_error_app1, Hu; [reflexivity|].
  apply nth_error_Some. congruence.
Qed.

Lemma expand_dummies_keys (data dat : DataFrame) (info info' : list (value * value))
    (var : string) (keys : list value) :
  expand_dummies data info = Ok (dat, info') ->
  column_values data var = Ok keys ->
  column_values dat var = Ok keys
  /\ (filter is_dummy info = [] -> info' = info).
Proof.
  unfold expand_dummies.
  destruct (filter is_dummy info) as [|d ds] eqn:Hd; simpl.
  - intros H. injection H as <- <-. auto.
  - unfold get_dummies.
    destruct (mapM (dummy_levels data) _) as [specs|e]; simpl; [|discriminate].
    destruct (forallb _ _); [|discriminate].
    intros H. injection H as <- <-. intros Hkeys. split; [|discriminate].
    eapply column_values_concat; [|exact Hkeys]. simpl. reflexivity.
Qed.

(** C3, as amended: the table [aggregate_data] returns has the grouping
    column first and in it, in the order of their first occurrence, one
    row for every distinct value of the grouping column that is not
    missing; a missing value has a row only when no instruction is left to
    apply, the result being then the de-duplicated grouping column. *)
Theorem aggregate_data_one_row_per_group
    (data : DataFrame) (info : list (value * value)) (var : string)
    (keys : list value) (out : DataFrame) :
  column_values data var = Ok keys ->
  aggregate_data data info var = Ok out ->
  exists dat info',
    expand_dummies data info = Ok (dat, info')
    /\ (filter is_dummy info = [] -> info' = info)
    /\ index_of var (columns out) = Some O
    /\ key_cells out = match info' with
                       | [] => distinct keys
                       | _ :: _ => filter notnull (distinct keys)
                       end
    /\ (forall k, In k keys ->
          List.length (filter (same_key k) (distinct keys)) = 1%nat).
Proof.
  intros Hkeys. unfold aggregate_data, aggregate_setup.
  destruct (expand_dummies data info) as [[dat info']|e] eqn:Hexp; simpl; [|discriminate].
  destruct (expand_dummies_keys data dat info info' var keys Hexp Hkeys) as [Hk Hsame].
  rewrite Hk. simpl. unfold drop_duplicates.
  destruct (forallb hashable keys); simpl; [|discriminate].
  intros Hloop. exists dat, info'.
  assert (Hstart : keyed var keys (mkFrame [var] (map (fun k => [k]) (distinct keys)))).
  { unfold keyed, key_cells. simpl. rewrite String.eqb_refl.
    split; [reflexivity|]. split.
    - apply Forall_forall. intros l Hl. apply in_map_iff in Hl.
      destruct Hl as [k [<- _]]. discriminate.
    - rewrite map_map. simpl. rewrite map_id.
      apply Forall_forall. intros h Hh. apply distinct_In. exact Hh. }
  destruct (aggregate_loop_keys dat var keys Hk info' _ out Hstart Hloop) as [[Hidx _] Hcells].
  split; [reflexivity|]. split; [exact Hsame|]. split; [exact Hidx|]. split.
  - rewrite Hcells. unfold key_cells. simpl. rewrite map_map. simpl. rewrite map_id.
    reflexivity.
  - intros k Hin. apply distinct_one. exists k. split; [exact Hin | apply same_key_refl].
Qed.

End AggregateFacts.

(** ** Effects of the entry points *)

Section EffectFacts.
Context {py : PyLib}.

Lemma unchanged_but_refl (tables : list Call.loc) (w : Call.world) :
  unchanged_but tables w w.
Proof. intros l. auto. Qed.


Lemma effect_stay {A : Type} (tables : list Call.loc) (loud : bool) (r : result A)
    (w : Call.world) :
  effect tables loud 0 r w w.
Proof.
  split; [|split].
  - apply unchanged_but_refl.
  - exists []. rewrite app_nil_r. auto.
  - exists []. rewrite app_nil_r. auto.
Qed.

Lemma preserves_weaken {A : Type} (tables tables' : list Call.loc)
    (loud loud' : bool) (n : nat) (m : Call.M A) :
  incl tables tables' -> (loud = true -> loud' = true) ->
  preserves tables loud n m -> preserves tables' loud' n m.
Proof.
  intros Hincl Hloud H w.
  destruct (H w) as [Hh [[lines [Hc [Hd Hq]]] Hb]].
  split; [|split].
  - intros l. destruct (Hh l) as [Hr [Hi Hl]]. split; [exact Hr|]. split; [exact Hi|].
    intros Hn. apply Hl. intros Hin. apply Hn, Hincl, Hin.
  - exists lines. split; [exact Hc|]. split; [exact Hd|].
    intros Hq'. apply Hq. destruct loud; [rewrite Hloud in Hq'; congruence | reflexivity].
  - exact Hb.
Qed.




Lemma preserves_index_of (tables : list Call.loc) (loud : bool)
    (l : Call.loc) : preserves tables loud 0 (Call.index_of l).
Proof. intros w. apply effect_stay. Qed.













End EffectFacts.

(** ** The properties at sample data *)

Ltac distinct_labels :=
  repeat (constructor; [simpl; intuition discriminate|]); constructor.

Ltac rectangular := repeat constructor.

Ltac responses :=
  repeat (apply Forall_cons;
          [first [left; reflexivity
                 | right; left; eexists; reflexivity
                 | right; right; eexists; reflexivity]|]);
  apply Forall_nil.

Lemma split_categorical_vars_indicators_witness :
  split_categorical_vars (py := Lib.lib)
    [VStr "1,3"; nan; VInt 3; VStr "7"; VStr ","] sight_labels
  = Ok (mkFrame ["morning"; "evening"]
          [[VInt 1; VInt 1]; [VInt 0; VInt 0]; [VInt 0; VInt 1];
           [VInt 0; VInt 0]; [VInt 0; VInt 0]]).
Proof.
  destruct (split_categorical_vars_indicators (py := Lib.lib)
              [VStr "1,3"; nan; VInt 3; VStr "7"; VStr ","] sight_labels)
    as [H _].
  - distinct_labels.
  - responses.
  - exact H.
Defined.

(** C10 fails for a list: it has a length, and a list of one item is
    taken as one token without any error. *)
Lemma split_categorical_vars_list_counterexample :
  split_categorical_vars (py := Lib.lib) [VList [VInt 7]] sight_labels
  = Ok (mkFrame ["morning"; "evening"] [[VInt 0; VInt 0]]).
Proof. reflexivity. Qed.

Lemma split_categorical_vars_unsized_witness :
  split_categorical_vars (py := Lib.lib) [VStr "1"; VNone; VStr "3"] sight_labels
  = Raise TypeError.
Proof.
  destruct (split_categorical_vars_unsized (py := Lib.lib)
              [VStr "1"] [VStr "3"] VNone sight_labels)
    as [_ [H _]].
  - distinct_labels.
  - responses.
  - left. reflexivity.
  - exact H.
Defined.


Lemma normalize_data_text_only_witness :
  outcome (normalize_data (py := Lib.lib)
             (mkFrame ["org"; "n"] [[VStr "GHA"; VInt 5]; [nan; VInt 2]])
             gila_lookup "org")
  = Raise AttributeError.
Proof.
  destruct (normalize_data_text_only (py := Lib.lib)
              (mkFrame ["org"; "n"] [[VStr "GHA"; VInt 5]; [nan; VInt 2]])
              gila_lookup "org" 0)
    as [H _].
  - split; [distinct_labels | rectangular].
  - reflexivity.
  - apply H. exists [nan; VInt 2], nan.
    split; [right; left; reflexivity|]. split; [reflexivity | discriminate].
Defined.

(** C5 fails for a list: it is no key of the map, and looking it up is a
    [TypeError], not a [KeyError]. *)
Lemma repl_with_agg_string_list_counterexample :
  is_key bird_groups (VList [VStr "owl"]) = false
  /\ repl_with_agg_string (mkFrame ["species"] [[VList [VStr "owl"]]])
       "species" bird_groups
     = Raise TypeError.
Proof. split; reflexivity. Qed.

Lemma repl_with_agg_string_total_map_witness :
  repl_with_agg_string birds "species" bird_groups
  = Ok (mkFrame ["species"] [[VStr "raptor"]; [VStr "raptor"]]).
Proof.
  destruct (repl_with_agg_string_total_map birds "species" bird_groups 0) as [_ H].
  - split; [distinct_labels | rectangular].
  - reflexivity.
  - apply H. intros r [<-|[<-|[]]].
    + exists "owl", "raptor". split; reflexivity.
    + exists "hawk", "raptor". split; reflexivity.
Defined.

Lemma aggregate_col_cardinal_witness :
  aggregate_col (py := Lib.lib) sightings "species" (VStr "seen") (VStr "three")
  = Ok (mkAggCol "species" "seen"
          [(VStr "hawk", float 0); (VStr "owl", float 1)]).
Proof.
  destruct (aggregate_col_cardinal (py := Lib.lib) sightings "species" "seen" "three" 3
              [VStr "owl"; VStr "owl"; VStr "hawk"; nan]
              [float 1; float 3; nan; float 3])
    as [H _];
    [reflexivity | reflexivity | reflexivity | reflexivity | exact H].
Defined.



(** C3 fails with a missing value in the grouping column: the column has
    three distinct values, NaN among them, and the result two rows. *)
Lemma aggregate_data_missing_group_counterexample :
  column_values sightings "species" = Ok [VStr "owl"; VStr "owl"; VStr "hawk"; nan]
  /\ distinct [VStr "owl"; VStr "owl"; VStr "hawk"; nan]
     = [VStr "owl"; VStr "hawk"; nan]
  /\ aggregate_data (py := Lib.lib) sightings [(VStr "seen", VStr "three")] "species"
     = Ok (mkFrame ["species"; "seen"]
             [[VStr "owl"; float 1]; [VStr "hawk"; float 0]]).
Proof. repeat split; reflexivity. Qed.

Lemma aggregate_data_one_row_per_group_witness :
  exists out,
    aggregate_data (py := Lib.lib) sightings [(VStr "seen", VStr "three")] "species"
    = Ok out
    /\ key_cells out = [VStr "owl"; VStr "hawk"].
Proof.
  exists (mkFrame ["species"; "seen"]
            [[VStr "owl"; float 1]; [VStr "hawk"; float 0]]).
  split; [reflexivity|].
  destruct (aggregate_data_one_row_per_group (py := Lib.lib) sightings
              [(VStr "seen", VStr "three")] "species"
              [VStr "owl"; VStr "owl"; VStr "hawk"; nan]
              (mkFrame ["species"; "seen"]
                 [[VStr "owl"; float 1]; [VStr "hawk"; float 0]]))
    as [dat [info' [_ [Hsame [_ [Hcells _]]]]]].
  - reflexivity.
  - reflexivity.
  - rewrite Hcells, (Hsame eq_refl). reflexivity.
Defined.


(** The instruction table of [aggregate_data] at the sample data: the call
    leaves the object it was given with other labels than it had. *)
Lemma aggregate_data_relabels_table :
  columns (Call.heap sample_world 1%nat) = ["var"; "fn"]
  /\ columns (Call.heap
                (snd (Call.aggregate_data (py := Lib.lib) 0%nat 1%nat "species"
                        sample_world)) 1%nat)
     = ["variable"; "agg_function"].
Proof. split; reflexivity. Qed.

(** The join of line 99 at a slice that kept the row labels 5 and 6: the
    indicators come with the labels 0 and 1, no label is on both sides, and
    the outer join has a row for each of the four.  [create_data] gives the
    data the default labels first, and the rows are paired. *)
Lemma split_multiple_categorical_vars_sliced :
  fst (Call.split_multiple_categorical_vars (py := Lib.lib) 0%nat 1%nat sliced_world)
  = Ok (mkFrame ["species"; "morning"; "evening"]
          [[VStr "Owl"; nan; nan]; [VStr "HAWK"; nan; nan];
           [nan; float 1; float 1]; [nan; float 0; float 1]])
  /\ fst (Call.create_data (py := Lib.lib) 0%nat (Some 1%nat) None "species" None
            "species" None "species" sliced_world)
     = Ok (mkFrame ["species"; "morning"; "evening"]
             [[VStr "Owl"; VInt 1; VInt 1]; [VStr "HAWK"; VInt 0; VInt 1]]).
Proof. split; reflexivity. Qed.

(** * Further properties *)

(** ** Splitter *)

Lemma mapM_Forall {A B : Type} (f : A -> result B) (P : B -> Prop)
    (l : list A) (out : list B) :
  (forall x y, In x l -> f x = Ok y -> P y) -> mapM f l = Ok out -> Forall P out.
Proof.
  revert out. induction l as [|x l IH]; simpl; intros out HP H.
  - injection H as <-. constructor.
  - destruct (f x) as [y|e] eqn:Hx; simpl in H; [|discriminate].
    destruct (mapM f l) as [ys|e]; simpl in H; [|discriminate].
    injection H as <-. constructor.
    + apply (HP x y); auto.
    + apply IH; auto. intros x' y' Hin. apply HP. right. exact Hin.
Qed.

Lemma Forall_set_nth {A : Type} (P : A -> Prop) (i : nat) (v : A) (l : list A) :
  P v -> Forall P l -> Forall P (set_nth i v l).
Proof.
  intros Hv. revert i. induction l as [|x l IH]; intros [|i] H; simpl;
    try constructor; inversion H; subst; auto.
Qed.

Lemma mark_keys_bits (keys toks : list string) (add : list Z) :
  Forall (fun z => z = 0 \/ z = 1) add ->
  Forall (fun z => z = 0 \/ z = 1) (mark_keys keys toks add)
  /\ List.length (mark_keys keys toks add) = List.length add.
Proof.
  intros H. split; [|apply mark_keys_length].
  unfold mark_keys. generalize keys at 2. intros ks. revert add H.
  induction ks as [|k ks IH]; intros add H; simpl; [exact H|].
  apply IH. destruct (str_in k toks); [|exact H].
  destruct (index_of k keys); [|exact H].
  apply Forall_set_nth; auto.
Qed.

Section SplitterMore.
Context {py : PyLib}.

Lemma split_response_bits (d : list (string * string)) (v : value) (add : list Z) :
  split_response d v = Ok add ->
  List.length add = List.length d /\ Forall (fun z => z = 0 \/ z = 1) add.
Proof.
  unfold split_response.
  assert (Hzero : Forall (fun z => z = 0 \/ z = 1) (repeat 0 (List.length d))).
  { apply Forall_forall. intros z Hz. apply repeat_spec in Hz. auto. }
  destruct (negb (is_nan v)).
  - destruct (tokens v) as [toks|e]; simpl; [|discriminate].
    intros H. injection H as <-.
    destruct (mark_keys_bits (map fst d) toks _ Hzero) as [Hb Hl].
    split; [rewrite Hl; apply repeat_length | exact Hb].
  - intros H. injection H as <-. split; [apply repeat_length | exact Hzero].
Qed.

Lemma split_categorical_vars_size
    (series : list value) (d : list (string * string)) (out : DataFrame) :
  split_categorical_vars series d = Ok out ->
  columns out = map snd d
  /\ List.length (rows out) = List.length series
  /\ Forall (fun r => List.length r = List.length d) (rows out).
Proof.
  unfold split_categorical_vars.
  destruct (mapM (split_response d) series) as [output|e] eqn:Hm; simpl; [|discriminate].
  intros H. injection H as <-. simpl.
  split; [reflexivity|]. split.
  - rewrite length_map. apply (mapM_length _ _ _ Hm).
  - apply Forall_forall. intros r Hr. apply in_map_iff in Hr.
    destruct Hr as [add [<- Hadd]]. rewrite length_map.
    assert (Hall : Forall (fun add => List.length add = List.length d) output).
    { apply (mapM_Forall (split_response d) _ series output); [|exact Hm].
      intros x y _ Hxy. apply (split_response_bits d x y Hxy). }
    rewrite Forall_forall in Hall. apply Hall. exact Hadd.
Qed.

(** Whatever the responses and the map, a table [split_categorical_vars]
    returns has the labels of the map as columns, one row per response and
    in every row one cell per label, each 0 or 1. *)
Theorem split_categorical_vars_binary
    (series : list value) (d : list (string * string)) (out : DataFrame) :
  split_categorical_vars series d = Ok out ->
  columns out = map snd d
  /\ List.length (rows out) = List.length series
  /\ Forall (fun r => List.length r = List.length d /\ Forall binary r) (rows out).
Proof.
  intros Hout.
  destruct (split_categorical_vars_size series d out Hout) as [Hcols [Hrows Hlen]].
  split; [exact Hcols|]. split; [exact Hrows|].
  unfold split_categorical_vars in Hout.
  destruct (mapM (split_response d) series) as [output|e] eqn:Hm; simpl in Hout;
    [|discriminate].
  injection Hout as <-. simpl in *.
  apply Forall_forall. intros r Hr. split.
  - rewrite Forall_forall in Hlen. apply Hlen. exact Hr.
  - apply in_map_iff in Hr. destruct Hr as [add [<- Hadd]].
    assert (Hall : Forall (Forall (fun z => z = 0 \/ z = 1)) output).
    { apply (mapM_Forall (split_response d) _ series output); [|exact Hm].
      intros x y _ Hxy. apply (split_response_bits d x y Hxy). }
    rewrite Forall_forall in Hall. pose proof (Hall add Hadd) as Hb.
    apply Forall_forall. intros c Hc. apply in_map_iff in Hc.
    destruct Hc as [z [<- Hz]]. rewrite Forall_forall in Hb.
    destruct (Hb z Hz) as [->| ->]; [left | right]; reflexivity.
Qed.

(** A list response with more than one item has a length above 1 and no
    [split]: the call raises an [AttributeError]. *)
Theorem split_categorical_vars_long_list
    (pre post : list value) (items : list value) (d : list (string * string)) :
  NoDup (map fst d) ->
  Forall response pre ->
  (1 < List.length items)%nat ->
  split_categorical_vars (pre ++ VList items :: post) d = Raise AttributeError.
Proof.
  intros Hnd Hpre Hlen. unfold split_categorical_vars.
  rewrite (mapM_raise _ (indicators d) AttributeError); [reflexivity | |].
  - intros u Hu. apply split_response_spec; [exact Hnd|].
    rewrite Forall_forall in Hpre. apply Hpre. exact Hu.
  - unfold split_response, tokens. simpl.
    replace (1 <? Z.of_nat (List.length items)) with true
      by (symmetry; apply Z.ltb_lt; lia).
    reflexivity.
Qed.

Lemma split_on_cons (sep : ascii) (s : string) :
  exists t ts, split_on sep s = t :: ts.
Proof.
  destruct s as [|c s]; simpl; [eauto|].
  destruct (Ascii.eqb c sep); [eauto|].
  destruct (split_on sep s); eauto.
Qed.

Lemma join_cons_cons (sep t u : string) (l : list string) :
  join sep (t :: u :: l) = t +++ sep +++ join sep (u :: l).
Proof. reflexivity. Qed.

Lemma append_String (c : ascii) (s t : string) :
  String c s +++ t = String c (s +++ t).
Proof. reflexivity. Qed.

Lemma join_split_on (sep : ascii) (s : string) :
  join (String sep EmptyString) (split_on sep s) = s.
Proof.
  induction s as [|c s IH]; simpl; [reflexivity|].
  destruct (split_on_cons sep s) as [t [ts Hs]]. rewrite Hs in *.
  destruct (Ascii.eqb_spec c sep) as [->|Hne].
  - rewrite join_cons_cons, IH. reflexivity.
  - destruct ts as [|u ts].
    + simpl in *. rewrite IH. reflexivity.
    + rewrite join_cons_cons in *. rewrite append_String, IH. reflexivity.
Qed.

Lemma split_on_pieces (sep : ascii) (s : string) :
  Forall (fun t => has_char sep t = false) (split_on sep s)
  /\ List.length (split_on sep s) = S (count_char sep s).
Proof.
  induction s as [|c s [IHf IHl]]; simpl.
  - split; [repeat constructor | reflexivity].
  - destruct (Ascii.eqb c sep) eqn:Hc.
    + split; [constructor; [reflexivity | exact IHf] | simpl; rewrite IHl; reflexivity].
    + destruct (split_on sep s) as [|t ts]; simpl in *; [discriminate|].
      inversion IHf; subst. split; [|exact IHl].
      constructor; [simpl; rewrite Hc; assumption | assumption].
Qed.

(** The tokens of a text response longer than one character are the pieces
    between its commas: none holds a comma, there is one more than commas,
    and joined by commas they give the response back. *)
Theorem tokens_round_trip (s : string) :
  (1 < String.length s)%nat ->
  exists ts,
    tokens (VStr s) = Ok ts
    /\ join "," ts = s
    /\ Forall (fun t => has_char comma t = false) ts
    /\ List.length ts = S (count_char comma s).
Proof.
  intros Hlen. exists (split_on comma s). unfold tokens. simpl.
  replace (1 <? Z.of_nat (String.length s)) with true
    by (symmetry; apply Z.ltb_lt; lia).
  split; [reflexivity|]. split; [apply (join_split_on comma)|].
  apply split_on_pieces.
Qed.

End SplitterMore.

(** ** Splitting several columns *)

Lemma filter_combine_length {A B : Type} (g : A -> bool) (l : list A) (r : list B) :
  List.length r = List.length l ->
  List.length (filter (fun lc => g (fst lc)) (combine l r)) = List.length (filter g l).
Proof.
  revert r. induction l as [|a l IH]; intros [|b r] H; simpl in *;
    try reflexivity; try discriminate.
  destruct (g a); simpl; rewrite IH by lia; reflexivity.
Qed.

Lemma drop_column_rectangular (df : DataFrame) (label : string) :
  rectangular_frame df -> rectangular_frame (drop_column df label).
Proof.
  unfold rectangular_frame, drop_column. simpl. intros H.
  apply Forall_forall. intros r Hr. apply in_map_iff in Hr.
  destruct Hr as [r0 [<- Hr0]]. rewrite Forall_forall in H.
  rewrite length_map.
  apply (filter_combine_length (fun c => negb (String.eqb c label))).
  apply H. exact Hr0.
Qed.

Lemma concat_columns_rectangular (a b : DataFrame) :
  rectangular_frame a -> rectangular_frame b -> rectangular_frame (concat_columns a b).
Proof.
  unfold rectangular_frame, concat_columns. simpl. intros Ha Hb.
  apply Forall_forall. intros r Hr. apply in_map_iff in Hr.
  destruct Hr as [[r1 r2] [<- Hin]]. simpl.
  rewrite Forall_forall in Ha, Hb. rewrite !length_app.
  rewrite (Ha r1 (in_combine_l _ _ _ _ Hin)), (Hb r2 (in_combine_r _ _ _ _ Hin)).
  reflexivity.
Qed.

Section SplitMultiple.
Context {py : PyLib}.

Lemma same_labels_length (a b : list value) :
  same_labels a b = true -> List.length a = List.length b.
Proof.
  revert b. induction a as [|x a IH]; intros [|y b]; simpl; try discriminate; auto.
  intros H. apply andb_true_iff in H. f_equal. apply IH, H.
Qed.

Lemma split_loop_rows (info : list (value * value)) :
  forall dat index out,
    same_labels index (range_index (List.length (rows dat))) = true ->
    split_loop dat index info = Ok out ->
    fst out = index
    /\ List.length (rows (snd out)) = List.length (rows dat)
    /\ (rectangular_frame dat -> rectangular_frame (snd out)).
Proof.
  induction info as [|[variable cell] info IH]; intros dat index out Hindex; simpl.
  - intros H. injection H as <-. auto.
  - destruct (label_of variable) as [label|e]; simpl; [|discriminate].
    destruct (column_values dat label) as [series|e] eqn:Hcol; simpl; [|discriminate].
    destruct (literal_eval cell) as [d|e]; simpl; [|discriminate].
    destruct (split_categorical_vars series d) as [sv|e] eqn:Hsv; simpl; [|discriminate].
    destruct (split_categorical_vars_size series d sv Hsv) as [Hcols [Hrows Hcells]].
    assert (Hsize : List.length (rows sv) = List.length (rows dat)).
    { rewrite Hrows. apply (column_values_length dat label series Hcol). }
    unfold concat_axis1. rewrite Hsize, Hindex. simpl.
    assert (Hjoin : List.length (rows (concat_columns (drop_column dat label) sv))
                    = List.length (rows dat)).
    { unfold concat_columns, drop_column. simpl.
      rewrite length_map, length_combine, length_map, Hsize. apply Nat.min_id. }
    intros Hloop.
    destruct (IH (concat_columns (drop_column dat label) sv) index out) as [Hi [Hlen Hrect]];
      [rewrite Hjoin; exact Hindex | exact Hloop |].
    split; [exact Hi|]. split; [rewrite Hlen; exact Hjoin|].
    intros Hdat. apply Hrect. apply concat_columns_rectangular.
    + apply drop_column_rectangular. exact Hdat.
    + unfold rectangular_frame. rewrite Hcols, length_map.
      exact Hcells.
Qed.

(** On data that have the default row labels 0, 1, ..., as [create_data]
    passes them, every join of line 99 pairs the rows one by one:
    [split_multiple_categorical_vars] keeps the number of rows, and keeps a
    rectangular table rectangular. *)
Theorem split_multiple_categorical_vars_rows
    (data out : DataFrame) (index : list value) (split_info : list (value * value)) :
  same_labels index (range_index (List.length (rows data))) = true ->
  split_multiple_categorical_vars data index split_info = Ok out ->
  List.length (rows out) = List.length (rows data)
  /\ (rectangular_frame data -> rectangular_frame out).
Proof.
  intros Hindex. unfold split_multiple_categorical_vars.
  destruct (split_loop data index split_info) as [joined|e] eqn:Hloop; simpl;
    [|discriminate].
  intros H. injection H as <-.
  destruct (split_loop_rows split_info data index joined Hindex Hloop) as [_ [H1 H2]].
  split; [exact H1 | exact H2].
Qed.

End SplitMultiple.

(** ** Normalizer *)

Section NormalizerMore.
Context {py : PyLib}.

(** [replace] makes one copy of the row per replacement, each as long as
    the row; a position outside the row is an [IndexError] as soon as
    there is a replacement to write, and no error without one. *)
Theorem replace_bounds (r : row) (ms : list value) (p : nat) :
  ((p < List.length r)%nat ->
   replace r ms p = Ok (map (fun n => set_nth p n r) ms)
   /\ Forall (fun c => List.length c = List.length r)
             (map (fun n => set_nth p n r) ms))
  /\ ((List.length r <= p)%nat -> ms <> [] -> replace r ms p = Raise IndexError)
  /\ replace r [] p = Ok [].
Proof.
  split; [|split].
  - intros Hp. split; [apply replace_copies; exact Hp|].
    apply Forall_forall. intros c Hc. apply in_map_iff in Hc.
    destruct Hc as [n [<- _]]. apply length_set_nth.
  - intros Hp Hms. destruct ms as [|m ms]; [congruence|].
    unfold replace, series_set. simpl.
    replace (Nat.ltb p (List.length r)) with false
      by (symmetry; apply Nat.ltb_ge; exact Hp).
    reflexivity.
  - reflexivity.
Qed.



Lemma normalize_loop_lengths (data : DataFrame) (lookup : list (string * value))
    (var : string) (n : nat) :
  forall (todo acc : list row) (out : list string) (res : list row),
    Forall (fun r => List.length r = n) todo ->
    Forall (fun r => List.length r = n) acc ->
    outcome (normalize_loop data lookup var todo acc out) = Ok res ->
    Forall (fun r => List.length r = n) res.
Proof.
  intros todo. induction todo as [|r todo IH]; intros acc out res Htodo Hacc; simpl.
  - intros H. injection H as <-. exact Hacc.
  - inversion Htodo as [|? ? Hr Hrest]; subst.
    destruct (loc_cell data r var) as [v|e]; simpl; [|discriminate].
    destruct (py_lower v) as [low|e]; simpl; [|discriminate].
    destruct (Nat.eqb (List.length (lookup_matches lookup low)) 0).
    + apply IH; assumption.
    + destruct (get_loc data var) as [i|e]; simpl; [|discriminate].
      destruct (replace r (lookup_matches lookup low) i) as [rs|e] eqn:Hrs; simpl;
        [|discriminate].
      apply IH; [exact Hrest|]. apply Forall_app. split; [exact Hacc|].
      unfold replace in Hrs. eapply mapM_Forall; [|exact Hrs].
      intros x y _ Hxy. simpl in Hxy. unfold series_set in Hxy.
      destruct (Nat.ltb i (List.length r)); [|discriminate].
      injection Hxy as <-. apply length_set_nth.
Qed.

(** The table [normalize_data] returns has the labels of the data, and is
    rectangular when the data are. *)
Theorem normalize_data_rectangular
    (data out : DataFrame) (lookup : list (string * value)) (var : string) :
  rectangular_frame data ->
  outcome (normalize_data data lookup var) = Ok out ->
  columns out = columns data /\ rectangular_frame out.
Proof.
  unfold normalize_data, rectangular_frame. simpl. intros Hrect.
  destruct (outcome (normalize_loop data lookup var (rows data) [] [])) as [res|e] eqn:Hloop;
    simpl; [|discriminate].
  intros H. injection H as <-. simpl. split; [reflexivity|].
  apply (normalize_loop_lengths data lookup var _ (rows data) [] [] res Hrect);
    [constructor | exact Hloop].
Qed.

Lemma set_nth_set_nth {A : Type} (p : nat) (u v : A) (l : list A) :
  set_nth p v (set_nth p u l) = set_nth p v l.
Proof.
  revert p. induction l as [|x l IH]; intros [|p]; simpl; try reflexivity.
  rewrite IH. reflexivity.
Qed.

Lemma copies_respell (lookup : list (string * value)) (g : string -> string)
    (p : nat) (r : row) :
  (forall s, str_lower (g s) = str_lower s) ->
  text_at p r ->
  text_at p (respell g p r) /\ copies lookup p (respell g p r) = copies lookup p r.
Proof.
  intros Hg Hr. pose proof (text_at_lt p r Hr) as Hlt. destruct Hr as [s Hs].
  unfold respell. rewrite Hs.
  assert (Hnew : nth_error (set_nth p (VStr (g s)) r) p = Some (VStr (g s)))
    by (apply nth_error_set_nth_eq; exact Hlt).
  split; [exists (g s); exact Hnew|].
  unfold copies. rewrite Hnew, Hs, Hg.
  apply map_ext. intros n. apply set_nth_set_nth.
Qed.

(** The letter case of the target column does not matter to the result:
    respelling its values without changing their lower-case form leaves the
    table [normalize_data] returns the same. *)
Theorem normalize_data_ignores_case
    (data : DataFrame) (lookup : list (string * value)) (var : string) (p : nat)
    (g : string -> string) :
  index_of var (columns data) = Some p ->
  (forall r, In r (rows data) -> text_at p r) ->
  (forall s, str_lower (g s) = str_lower s) ->
  outcome (normalize_data (mkFrame (columns data) (map (respell g p) (rows data)))
             lookup var)
  = outcome (normalize_data data lookup var).
Proof.
  intros Hp Htext Hg. unfold normalize_data. simpl.
  rewrite (normalize_loop_text (mkFrame (columns data) (map (respell g p) (rows data)))
             lookup var p Hp).
  - rewrite (normalize_loop_text data lookup var p Hp)
      by (apply Forall_forall; exact Htext).
    simpl. f_equal. f_equal. rewrite flat_map_concat_map, map_map.
    rewrite flat_map_concat_map. f_equal. apply map_ext_in.
    intros r Hr. apply copies_respell; auto.
  - apply Forall_forall. intros r Hr. apply in_map_iff in Hr.
    destruct Hr as [r0 [<- Hr0]]. apply copies_respell; auto.
Qed.

(** A target column that is not in the data is a [KeyError] at the first
    row; on data without rows the call returns the empty table and never
    looks for the column. *)
Theorem normalize_data_missing_column
    (data : DataFrame) (lookup : list (string * value)) (var : string) :
  index_of var (columns data) = None ->
  (rows data <> [] -> normalize_data data lookup var = mkRun [] (Raise KeyError))
  /\ (rows data = [] ->
      normalize_data data lookup var = mkRun [] (Ok (mkFrame (columns data) []))).
Proof.
  intros Hp. unfold normalize_data. split.
  - destruct (rows data) as [|r rs]; [congruence|]. intros _. simpl.
    unfold loc_cell, get_loc. rewrite Hp. reflexivity.
  - intros ->. reflexivity.
Qed.

End NormalizerMore.

(** ** Building the lookup *)

Lemma distinct_rows_In (r : row) (l : list row) : In r (distinct_rows l) -> In r l.
Proof.
  induction l as [|x l IH]; simpl; [auto|].
  intros [->|H]; [left; reflexivity|].
  apply filter_In in H. right. apply IH. apply H.
Qed.

Lemma flat_map_none {A B : Type} (f : A -> list B) (l : list A) :
  (forall x, In x l -> f x = []) -> flat_map f l = [].
Proof.
  induction l as [|x l IH]; simpl; intros H; [reflexivity|].
  rewrite (H x (or_introl eq_refl)), IH; [reflexivity|].
  intros y Hy. apply H. right. exact Hy.
Qed.

Lemma flat_map_filter_skip {A B : Type} (f : A -> list B) (g : A -> bool) (l : list A) :
  (forall x, In x l -> g x = false -> f x = []) ->
  flat_map f (filter g l) = flat_map f l.
Proof.
  induction l as [|x l IH]; simpl; intros H; [reflexivity|].
  destruct (g x) eqn:Hg; simpl.
  - rewrite IH; [reflexivity|]. intros y Hy. apply H. right. exact Hy.
  - rewrite (H x (or_introl eq_refl) Hg). simpl. apply IH.
    intros y Hy. apply H. right. exact Hy.
Qed.

Lemma same_key_text (a b : string) :
  same_key (VStr a) (VStr b) = String.eqb a b.
Proof.
  destruct (String.eqb_spec a b) as [->|Hab]; [apply same_key_refl|].
  apply not_true_is_false. intros H. apply same_key_eq in H. simpl in H. congruence.
Qed.

Lemma find_map {A B : Type} (P : B -> bool) (h : A -> B) (l : list A) :
  find P (map h l) = option_map h (find (fun x => P (h x)) l).
Proof.
  induction l as [|x l IH]; simpl; [reflexivity|].
  destruct (P (h x)); [reflexivity | exact IH].
Qed.

Section LookupFacts.
Context {py : PyLib}.

Lemma lookup_entries_notnull (r : row) (es : list (string * value)) :
  lookup_entries r = Ok es ->
  Forall (fun kv => is_null (snd kv) = false /\ exists s, fst kv = str_lower s) es.
Proof.
  destruct r as [|index cells]; simpl.
  - intros H. injection H as <-. constructor.
  - destruct (mapM _ cells) as [ess|e] eqn:Hm; simpl; [|discriminate].
    intros H. injection H as <-.
    assert (Hall : Forall (Forall (fun kv => is_null (snd kv) = false
                                            /\ exists s, fst kv = str_lower s)) ess).
    { eapply mapM_Forall; [|exact Hm]. intros c es _ Hc. simpl in Hc.
      destruct (if_notnull c) as [b|e] eqn:Hb; simpl in Hc; [|discriminate].
      injection Hc as <-. destruct b; [|constructor].
      constructor; [|constructor]. simpl. split; [|eauto].
      destruct c as [s|n|x| |l]; simpl in *; try reflexivity;
        try (injection Hb as Hb; unfold notnull in Hb;
             apply negb_true_iff in Hb; exact Hb). }
    clear Hm. induction Hall as [|es ess Hes _ IH]; simpl; [constructor|].
    apply Forall_app. split; assumption.
Qed.

(** No entry of the lookup [get_lookup] builds has a missing value as its
    normalized value, and every raw string in it is a lower-cased text. *)
Theorem get_lookup_entries (df : DataFrame) (lookup : list (string * value)) :
  get_lookup df = Ok lookup ->
  Forall (fun kv => is_null (snd kv) = false /\ exists s, fst kv = str_lower s) lookup.
Proof.
  unfold get_lookup. destruct (columns df); [discriminate|].
  destruct (object_dtype _); [|discriminate].
  destruct (mapM lookup_entries _) as [ess|e] eqn:Hm; simpl; [|discriminate].
  intros H. injection H as <-.
  assert (Hall : Forall (Forall (fun kv => is_null (snd kv) = false
                                          /\ exists s, fst kv = str_lower s)) ess).
  { eapply mapM_Forall; [|exact Hm]. intros r es _ Hr.
    apply (lookup_entries_notnull r es Hr). }
  clear Hm. induction Hall as [|es ess Hes _ IH]; simpl; [constructor|].
  apply Forall_app. split; assumption.
Qed.

Lemma if_notnull_plain (c : value) : hashable c = true -> if_notnull c = Ok (notnull c).
Proof.
  destruct c; simpl; try reflexivity. discriminate.
Qed.

Lemma lookup_entries_plain (l : string) (cells : list value) :
  Forall (fun c => hashable c = true) cells ->
  lookup_entries (VStr l :: cells)
  = Ok (map (fun c => (str_lower l, c)) (filter notnull cells)).
Proof.
  intros Hcells. unfold lookup_entries. simpl.
  rewrite (mapM_total _ (fun c => if notnull c then [(str_lower l, c)] else [])).
  - simpl. f_equal. clear Hcells.
    induction cells as [|c cells IH]; simpl; [reflexivity|].
    rewrite IH. destruct (notnull c); reflexivity.
  - intros c Hc. rewrite Forall_forall in Hcells.
    rewrite (if_notnull_plain c (Hcells c Hc)). reflexivity.
Qed.

Lemma lookup_matches_flat_map (k : string) (rs : list row) :
  Forall (fun r => exists l cells, r = VStr l :: cells /\ str_lower l = l) rs ->
  lookup_matches
    (flat_map (fun r => match r with
                        | VStr l :: cells =>
                            map (fun c => (str_lower l, c)) (filter notnull cells)
                        | _ => []
                        end) rs) k
  = flat_map (fun r => match r with
                       | VStr l :: cells =>
                           if String.eqb l k then filter notnull cells else []
                       | _ => []
                       end) rs.
Proof.
  unfold lookup_matches. induction 1 as [|r rs [l [cells [-> Hl]]] _ IH]; simpl;
    [reflexivity|].
  rewrite filter_app, map_app, IH. f_equal. rewrite Hl.
  generalize (filter notnull cells). intros vs.
  destruct (String.eqb l k) eqn:Hk.
  - induction vs as [|v vs IHv]; simpl; [reflexivity|].
    rewrite Hk. simpl. rewrite IHv. reflexivity.
  - induction vs as [|v vs IHv]; simpl; [reflexivity|].
    rewrite Hk. exact IHv.
Qed.

Lemma distinct_rows_first (k : string) (rs : list row) :
  Forall (fun r => exists l cells, r = VStr l :: cells /\ str_lower l = l) rs ->
  flat_map (fun r => match r with
                     | VStr l :: cells =>
                         if String.eqb l k then filter notnull cells else []
                     | _ => []
                     end) (distinct_rows rs)
  = match find (fun r => match r with
                         | VStr l :: _ => String.eqb l k
                         | _ => false
                         end) rs with
    | Some r => replacements r
    | None => []
    end.
Proof.
  induction 1 as [|r rs [l [cells [-> Hl]]] Hrs IH]; simpl; [reflexivity|].
  assert (Hshape : forall r', In r' (distinct_rows rs) ->
                     exists l' cells', r' = VStr l' :: cells').
  { intros r' Hr'. apply distinct_rows_In in Hr'. rewrite Forall_forall in Hrs.
    destruct (Hrs r' Hr') as [l' [cells' [-> _]]]. eauto. }
  destruct (String.eqb_spec l k) as [->|Hne].
  - rewrite flat_map_none; [apply app_nil_r|].
    intros r' Hr'. apply filter_In in Hr'. destruct Hr' as [Hin Hdiff].
    destruct (Hshape r' Hin) as [l' [cells' ->]]. simpl in Hdiff.
    rewrite same_key_text in Hdiff.
    destruct (String.eqb_spec l' k) as [->|_]; [|reflexivity].
    rewrite String.eqb_refl in Hdiff. discriminate.
  - simpl. rewrite flat_map_filter_skip; [exact IH|].
    intros r' Hin Hsame. destruct (Hshape r' Hin) as [l' [cells' ->]].
    simpl in Hsame. rewrite same_key_text in Hsame.
    apply negb_false_iff in Hsame. apply String.eqb_eq in Hsame. subst l'.
    destruct (String.eqb_spec l k); [contradiction | reflexivity].
Qed.

(** For a wide table with text raw strings and no list, where lower-casing
    twice is lower-casing once, the lookup [get_lookup] builds gives for a
    key the replacements of the first row whose raw string lower-cases to
    the key: a later row with the same raw string, letter case apart, adds
    nothing. *)
Theorem get_lookup_first_row_wins (df : DataFrame) :
  columns df <> [] ->
  Forall plain_row (rows df) ->
  (forall s, str_lower (str_lower s) = str_lower s) ->
  exists lookup,
    get_lookup df = Ok lookup
    /\ forall k, lookup_matches lookup k
                 = match find (raw_is k) (rows df) with
                   | Some r => replacements r
                   | None => []
                   end.
Proof.
  intros Hcols Hrows Hidem. unfold get_lookup.
  destruct (columns df) as [|c0 cs]; [congruence|].
  assert (Hobj : object_dtype (map (hd VNone) (rows df)) = true).
  { destruct (rows df) as [|r rs]; [reflexivity|].
    inversion Hrows as [|? ? [raw [cells [-> _]]] _]; subst. reflexivity. }
  rewrite Hobj.
  set (lowered := map (fun r => match r with
                                | [] => []
                                | c :: cells => lower_cell c :: cells
                                end) (rows df)).
  assert (Hlow : Forall (fun r => exists l cells,
                           r = VStr l :: cells /\ str_lower l = l
                           /\ Forall (fun c => hashable c = true) cells) lowered).
  { unfold lowered. apply Forall_forall. intros r Hr. apply in_map_iff in Hr.
    destruct Hr as [r0 [<- Hr0]]. rewrite Forall_forall in Hrows.
    destruct (Hrows r0 Hr0) as [raw [cells [-> Hcells]]]. simpl.
    exists (str_lower raw), cells. auto. }
  assert (Hlow' : Forall (fun r => exists l cells, r = VStr l :: cells /\ str_lower l = l)
                         lowered).
  { eapply Forall_impl; [|exact Hlow]. intros r [l [cells [-> [Hl _]]]]. eauto. }
  rewrite (mapM_total _
             (fun r => match r with
                       | VStr l :: cells =>
                           map (fun c => (str_lower l, c)) (filter notnull cells)
                       | _ => []
                       end)).
  - simpl. eexists. split; [reflexivity|]. intros k.
    rewrite <- flat_map_concat_map.
    rewrite lookup_matches_flat_map.
    + rewrite (distinct_rows_first k lowered Hlow').
      unfold lowered. rewrite find_map.
      assert (Hfind : forall rs, Forall plain_row rs ->
                find (fun x => match match x with
                                     | [] => []
                                     | c :: cells => lower_cell c :: cells
                                     end with
                               | VStr l :: _ => String.eqb l k
                               | _ => false
                               end) rs = find (raw_is k) rs).
      { induction 1 as [|r rs [raw [cells [-> _]]] _ IHf]; simpl; [reflexivity|].
        rewrite IHf. reflexivity. }
      rewrite (Hfind (rows df) Hrows).
      destruct (find (raw_is k) (rows df)) as [r|] eqn:Hf; [|reflexivity].
      apply find_some in Hf. destruct Hf as [Hin _]. rewrite Forall_forall in Hrows.
      destruct (Hrows r Hin) as [raw [cells [-> _]]]. reflexivity.
    + apply Forall_forall. intros r Hr. apply distinct_rows_In in Hr.
      rewrite Forall_forall in Hlow'. apply Hlow'. exact Hr.
  - intros r Hr. apply distinct_rows_In in Hr. rewrite Forall_forall in Hlow.
    destruct (Hlow r Hr) as [l [cells [-> [_ Hcells]]]].
    apply lookup_entries_plain. exact Hcells.
Qed.

End LookupFacts.

(** ** Category remapper *)

Lemma mapM_nth {A B : Type} (f : A -> result B) (l : list A) (out : list B) :
  mapM f l = Ok out ->
  forall i x, nth_error l i = Some x ->
    exists y, nth_error out i = Some y /\ f x = Ok y.
Proof.
  revert out. induction l as [|a l IH]; simpl; intros out H i x Hi.
  - destruct i; discriminate.
  - destruct (f a) as [b|e] eqn:Ha; simpl in H; [|discriminate].
    destruct (mapM f l) as [bs|e] eqn:Hl; simpl in H; [|discriminate].
    injection H as <-. destruct i as [|i]; simpl in *.
    + injection Hi as <-. eauto.
    + apply (IH bs eq_refl i x Hi).
Qed.

(** When [repl_with_agg_string] returns, the table has the labels and the
    number of rows of the data, and every row is the row of the data with
    the mapped label of its value written at the column: every value was a
    key, and no other cell changed. *)
Theorem repl_with_agg_string_rows
    (data out : DataFrame) (column : string) (d : list (string * string)) (p : nat) :
  index_of column (columns data) = Some p ->
  repl_with_agg_string data column d = Ok out ->
  columns out = columns data
  /\ List.length (rows out) = List.length (rows data)
  /\ forall i r, nth_error (rows data) i = Some r ->
       exists s g,
         nth_error r p = Some (VStr s)
         /\ dict_get d s = Some g
         /\ nth_error (rows out) i = Some (set_nth p (VStr g) r).
Proof.
  intros Hp. unfold repl_with_agg_string.
  destruct (mapM (remap_row data column d) (rows data)) as [rs|e] eqn:Hm; simpl;
    [|discriminate].
  intros H. injection H as <-. simpl.
  split; [reflexivity|]. split; [apply (mapM_length _ _ _ Hm)|].
  intros i r Hi. destruct (mapM_nth _ _ _ Hm i r Hi) as [r' [Hr' Hrow]].
  unfold remap_row, loc_cell, get_loc in Hrow. rewrite Hp in Hrow. simpl in Hrow.
  destruct (nth_error r p) as [v|] eqn:Hv; simpl in Hrow; [|discriminate].
  destruct v as [s| | | |]; simpl in Hrow; try discriminate.
  destruct (dict_get d s) as [g|] eqn:Hg; simpl in Hrow; [|discriminate].
  injection Hrow as <-. exists s, g. auto.
Qed.

(** ** Aggregation *)

Section AggregateMore.
Context {py : PyLib}.


Lemma mapM_keyed_In {A B : Type} (g : A -> result B) (l : list A) (out : list (A * B)) :
  mapM (fun k => v <- g k ;; Ok (k, v)) l = Ok out ->
  forall kv, In kv out -> g (fst kv) = Ok (snd kv).
Proof.
  revert out. induction l as [|a l IH]; simpl; intros out H kv Hkv.
  - injection H as <-. contradiction.
  - destruct (g a) as [b|e] eqn:Ha; simpl in H; [|discriminate].
    destruct (mapM _ l) as [bs|e] eqn:Hl; simpl in H; [|discriminate].
    injection H as <-. destruct Hkv as [<-|Hkv]; [exact Ha|].
    apply (IH bs eq_refl kv Hkv).
Qed.


Lemma aggregate_col_cells (dat : DataFrame) (var : string) (v f : value)
    (keys : list value) (c : AggCol) :
  column_values dat var = Ok keys ->
  aggregate_col dat var v f = Ok c ->
  exists label vals g,
    label_of v = Ok label
    /\ agg_label c = label
    /\ column_values dat label = Ok vals
    /\ agg_callable (resolve f) = Ok g
    /\ forall kv, In kv (agg_rows c) -> g (group_values keys vals (fst kv)) = Ok (snd kv).
Proof.
  intros Hkeys. unfold aggregate_col. rewrite Hkeys. simpl.
  destruct (label_of v) as [label|e] eqn:Hlabel; simpl; [|discriminate].
  destruct (column_values dat label) as [vals|e] eqn:Hvals; simpl; [|discriminate].
  destruct (agg_callable (resolve f)) as [g|e] eqn:Hg; simpl; [|discriminate].
  unfold groupby_agg. destruct (group_keys keys) as [ks|e]; simpl; [|discriminate].
  destruct (mapM _ ks) as [reduced|e] eqn:Hm; simpl; [|discriminate].
  intros H. injection H as <-. simpl.
  exists label, vals, g.
  split; [reflexivity|]. split; [reflexivity|]. split; [exact Hvals|].
  split; [reflexivity|]. intros kv Hkv.
  apply (mapM_keyed_In (fun k => g (group_values keys vals k)) ks reduced Hm kv Hkv).
Qed.





End AggregateMore.

Section AggregateLabels.
Context {py : PyLib}.

Lemma str_in_false (k : string) (l : list string) : ~ In k l -> str_in k l = false.
Proof.
  intros H. apply not_true_is_false. intros Hin. apply H. apply str_in_In. exact Hin.
Qed.

Lemma aggregate_loop_labels (dat : DataFrame) (var : string) (keys : list value) :
  column_values dat var = Ok keys ->
  forall (labels done : list string) (info : list (value * value))
         (left out : DataFrame),
    map fst info = map VStr labels ->
    NoDup (var :: done ++ labels) ->
    columns left = var :: done ->
    aggregate_loop dat var info left = Ok out ->
    columns out = var :: done ++ labels.
Proof.
  intros Hkeys labels. induction labels as [|l labels IH];
    intros done info left out Hinfo Hnd Hcols; destruct info as [|[v f] info];
    try discriminate; simpl.
  - intros H. injection H as <-. rewrite app_nil_r. exact Hcols.
  - simpl in Hinfo. injection Hinfo as -> Hinfo.
    destruct (aggregate_col dat var (VStr l) f) as [c|e] eqn:Hc; simpl; [|discriminate].
    destruct (aggregate_col_cells dat var (VStr l) f keys c Hkeys Hc)
      as [label [vals [g [Hlabel [Hagg _]]]]].
    simpl in Hlabel. injection Hlabel as <-.
    unfold merge, get_loc. rewrite Hcols. simpl. rewrite String.eqb_refl. simpl.
    destruct (negb (String.eqb (agg_index_name c) var)); simpl; [discriminate|].
    destruct (String.eqb (agg_label c) var); simpl; [discriminate|].
    assert (Hnot : ~ In l (var :: done)).
    { intros Hin. apply NoDup_cons_iff in Hnd. destruct Hnd as [Hvar Hnd].
      destruct Hin as [<-|Hin].
      - apply Hvar. apply in_or_app. right. left. reflexivity.
      - apply NoDup_remove_2 in Hnd. apply Hnd. apply in_or_app. left. exact Hin. }
    rewrite Hagg.
    assert (Hover : str_in l (var :: done) = false) by (apply str_in_false; exact Hnot).
    destruct (String.eqb_spec l var) as [Heq|_];
      [exfalso; apply Hnot; left; symmetry; exact Heq|].
    change (existsb (String.eqb l) done) with (str_in l done).
    assert (Hdone : str_in l done = false).
    { apply str_in_false. intros Hin. apply Hnot. right. exact Hin. }
    unfold str_in at 1. simpl existsb. fold (str_in l done).
    destruct (String.eqb_spec l var) as [Heq|_];
      [exfalso; apply Hnot; left; symmetry; exact Heq|].
    rewrite Hdone. simpl.
    intros Hloop.
    assert (Hout : columns out = var :: (done ++ [l]) ++ labels).
    { eapply (IH (done ++ [l]) info); [exact Hinfo | | | exact Hloop].
      - rewrite <- app_assoc. exact Hnd.
      - simpl. rewrite map_id. reflexivity. }
    rewrite Hout, <- app_assoc. reflexivity.
Qed.

(** With instructions on distinct columns, none of them the grouping column
    and none flagged [dummy], the table [aggregate_data] returns has the
    grouping column and then the aggregated columns, under their own
    labels and in the order of the instructions. *)
Theorem aggregate_data_labels
    (data out : DataFrame) (info : list (value * value)) (labels : list string)
    (var : string) (keys : list value) :
  filter is_dummy info = [] ->
  map fst info = map VStr labels ->
  NoDup (var :: labels) ->
  column_values data var = Ok keys ->
  aggregate_data data info var = Ok out ->
  columns out = var :: labels.
Proof.
  intros Hdummy Hinfo Hnd Hkeys. unfold aggregate_data, aggregate_setup, expand_dummies.
  rewrite Hdummy. simpl. rewrite Hkeys. simpl. unfold drop_duplicates.
  destruct (forallb hashable keys); simpl; [|discriminate].
  intros Hloop.
  apply (aggregate_loop_labels data var keys Hkeys labels [] info
           (mkFrame [var] (map (fun k => [k]) (distinct keys))) out Hinfo Hnd
           eq_refl Hloop).
Qed.





End AggregateLabels.

(** ** Calls on objects *)

Section CallFacts.
Context {py : PyLib}.

Lemma table_rows_relabel (labels : list string) (df : DataFrame) :
  Call.table_rows (mkFrame labels (rows df)) = Call.table_rows df.
Proof. reflexivity. Qed.

(** An instruction table that does not have two columns makes
    [aggregate_data] raise a [ValueError] at the relabelling, before
    anything else and without any effect; with two columns the call
    returns what [aggregate_data] computes from the data and the rows of
    the table, and leaves the table relabelled whatever the outcome. *)
Theorem aggregate_data_call
    (w : Call.world) (data info : Call.loc) (var : string) :
  (List.length (columns (Call.heap w info)) <> 2%nat ->
   Call.aggregate_data data info var w = (Raise ValueError, w))
  /\ (List.length (columns (Call.heap w info)) = 2%nat ->
      fst (Call.aggregate_data data info var w)
      = aggregate_data (Call.heap w data) (Call.table_rows (Call.heap w info)) var
      /\ forall l,
           Call.heap (snd (Call.aggregate_data data info var w)) l
           = if Nat.eqb l info
             then mkFrame Call.aggregation_labels (rows (Call.heap w info))
             else Call.heap w l).
Proof.
  unfold Call.aggregate_data, Call.aggregate_from, Call.bindM, Call.load,
    Call.set_columns, Call.lift, Call.tqdm, aggregate_data. simpl.
  split.
  - intros Hn. destruct (List.length (columns (Call.heap w info))) as [|[|[|n]]];
      try reflexivity. congruence.
  - intros ->. simpl. rewrite Nat.eqb_refl.
    destruct (aggregate_setup _ _ var) as [[[dat instructions] left]|e]; simpl;
      split; reflexivity.
Qed.

(** The same for [split_multiple_categorical_vars] and its instruction
    table; the data are split under the row labels they have. *)
Theorem split_multiple_categorical_vars_call
    (w : Call.world) (data info : Call.loc) :
  (List.length (columns (Call.heap w info)) <> 2%nat ->
   Call.split_multiple_categorical_vars data info w = (Raise ValueError, w))
  /\ (List.length (columns (Call.heap w info)) = 2%nat ->
      fst (Call.split_multiple_categorical_vars data info w)
      = split_multiple_categorical_vars (Call.heap w data) (Call.row_labels w data)
          (Call.table_rows (Call.heap w info))
      /\ forall l,
           Call.heap (snd (Call.split_multiple_categorical_vars data info w)) l
           = if Nat.eqb l info
             then mkFrame Call.split_labels (rows (Call.heap w info))
             else Call.heap w l).
Proof.
  unfold Call.split_multiple_categorical_vars, Call.split_from, Call.bindM, Call.load,
    Call.index_of, Call.set_columns, Call.lift, Call.tqdm. simpl.
  split.
  - intros Hn. destruct (List.length (columns (Call.heap w info))) as [|[|[|n]]];
      try reflexivity. congruence.
  - intros ->. simpl. rewrite Nat.eqb_refl. split; reflexivity.
Qed.

End CallFacts.

Section PipelineFacts.
Context {py : PyLib}.

Lemma aggregate_data_from (w : Call.world) (data info : Call.loc) (var : string) :
  Call.aggregate_data data info var w
  = Call.aggregate_from (Call.heap w data) info var w.
Proof. reflexivity. Qed.

Lemma aggregate_from_two (w : Call.world) (dat : DataFrame) (info : Call.loc)
    (var : string) :
  List.length (columns (Call.heap w info)) = 2%nat ->
  fst (Call.aggregate_from dat info var w)
  = aggregate_data dat (Call.table_rows (Call.heap w info)) var
  /\ forall l,
       Call.heap (snd (Call.aggregate_from dat info var w)) l
       = if Nat.eqb l info
         then mkFrame Call.aggregation_labels (rows (Call.heap w info))
         else Call.heap w l.
Proof.
  intros Hlen.
  unfold Call.aggregate_from, Call.bindM, Call.load, Call.set_columns, Call.lift,
    Call.tqdm, aggregate_data.
  rewrite Hlen. simpl. rewrite Nat.eqb_refl.
  destruct (aggregate_setup _ _ var) as [[[dat' instructions] left]|e]; simpl;
    split; reflexivity.
Qed.

Lemma aggregate_from_other (w : Call.world) (dat : DataFrame) (info : Call.loc)
    (var : string) :
  List.length (columns (Call.heap w info)) <> 2%nat ->
  Call.aggregate_from dat info var w = (Raise ValueError, w).
Proof.
  intros Hlen.
  unfold Call.aggregate_from, Call.bindM, Call.set_columns.
  destruct (List.length (columns (Call.heap w info))) as [|[|[|n]]];
    try reflexivity. congruence.
Qed.

(** A second call of [aggregate_data] on the same objects returns what the
    first returned: the relabelling the first call left on the instruction
    table does not change what the table says, as long as the table is not
    the data themselves. *)
Theorem aggregate_data_repeatable
    (w : Call.world) (data info : Call.loc) (var : string) :
  data <> info ->
  fst (Call.aggregate_data data info var
         (snd (Call.aggregate_data data info var w)))
  = fst (Call.aggregate_data data info var w).
Proof.
  intros Hne. rewrite !aggregate_data_from.
  destruct (Nat.eq_dec (List.length (columns (Call.heap w info))) 2) as [Hlen|Hlen].
  - destruct (aggregate_from_two w (Call.heap w data) info var Hlen) as [Hres Hheap].
    set (w' := snd (Call.aggregate_from (Call.heap w data) info var w)) in *.
    assert (Hinfo : Call.heap w' info
                    = mkFrame Call.aggregation_labels (rows (Call.heap w info))).
    { rewrite Hheap, Nat.eqb_refl. reflexivity. }
    assert (Hdata : Call.heap w' data = Call.heap w data).
    { rewrite Hheap. destruct (Nat.eqb_spec data info); [contradiction | reflexivity]. }
    assert (Hlen' : List.length (columns (Call.heap w' info)) = 2%nat)
      by (rewrite Hinfo; reflexivity).
    destruct (aggregate_from_two w' (Call.heap w' data) info var Hlen') as [Hres' _].
    rewrite Hres', Hres, Hdata, Hinfo. reflexivity.
  - rewrite (aggregate_from_other w (Call.heap w data) info var Hlen). simpl.
    rewrite (aggregate_from_other w (Call.heap w data) info var Hlen). reflexivity.
Qed.

(** A failure of the splitting stage ends [create_data] with the same
    exception: the later stages are not run, and the heap and the console
    are as the splitting left them.  The stage splits the copy of the data
    that line 447 has given the default row labels; on data that have these
    labels already it is the call of [split_multiple_categorical_vars]. *)
Theorem create_data_fail_fast
    (w : Call.world) (data split_info : Call.loc)
    (normalization_option aggregation_option : option Call.loc)
    (d_option : option (list (string * string))) (nv cv av : string) (e : py_error) :
  (fst (Call.split_from (Call.heap w data)
          (range_index (List.length (rows (Call.heap w data)))) split_info w)
   = Raise e ->
   Call.create_data data (Some split_info) normalization_option nv d_option cv
     aggregation_option av w
   = (Raise e,
      snd (Call.split_from (Call.heap w data)
             (range_index (List.length (rows (Call.heap w data)))) split_info w)))
  /\ (Call.row_labels w data = range_index (List.length (rows (Call.heap w data))) ->
      fst (Call.split_multiple_categorical_vars data split_info w) = Raise e ->
      Call.create_data data (Some split_info) normalization_option nv d_option cv
        aggregation_option av w
      = (Raise e, snd (Call.split_multiple_categorical_vars data split_info w))).
Proof.
  assert (Hstage :
    forall m : Call.M DataFrame,
      fst (m w) = Raise e ->
      Call.bindM m (fun dat =>
        Call.bindM
          (match normalization_option with
           | Some normalization_info =>
               Call.bindM (Call.load normalization_info) (fun info =>
                 Call.bindM (Call.lift (get_lookup info)) (fun norm_dict =>
                   Call.normalize_from dat norm_dict nv))
           | None => Call.ret dat
           end)
          (fun dat =>
             Call.bindM
               (match d_option with
                | Some d => Call.remap_from dat cv d
                | None => Call.ret dat
                end)
               (fun dat =>
                  match aggregation_option with
                  | Some aggregation_information =>
                      Call.aggregate_from dat aggregation_information av
                  | None => Call.ret dat
                  end))) w
      = (Raise e, snd (m w))).
  { intros m. unfold Call.bindM at 1. destruct (m w) as [[a|e'] w']; simpl;
      intros H; [discriminate|]. injection H as ->. reflexivity. }
  split.
  - intros H. apply (Hstage _ H).
  - intros Hlabels H.
    cbv beta iota zeta delta [Call.split_multiple_categorical_vars Call.bindM
                                Call.load Call.index_of] in H |- *.
    rewrite Hlabels in H |- *. apply (Hstage _ H).
Qed.

Lemma get_lookup_relabel (labels : list string) (df : DataFrame) :
  labels <> [] -> columns df <> [] ->
  get_lookup (mkFrame labels (rows df)) = get_lookup df.
Proof.
  intros Hl Hc. unfold get_lookup. simpl.
  destruct labels; [congruence|]. destruct (columns df); [congruence|]. reflexivity.
Qed.

Lemma split_from_two (w : Call.world) (dat : DataFrame) (index : list value)
    (info : Call.loc) :
  List.length (columns (Call.heap w info)) = 2%nat ->
  fst (Call.split_from dat index info w)
  = split_multiple_categorical_vars dat index (Call.table_rows (Call.heap w info))
  /\ forall l,
       Call.heap (snd (Call.split_from dat index info w)) l
       = if Nat.eqb l info
         then mkFrame Call.split_labels (rows (Call.heap w info))
         else Call.heap w l.
Proof.
  intros Hlen.
  unfold Call.split_from, Call.bindM, Call.load, Call.set_columns, Call.lift, Call.tqdm.
  rewrite Hlen. simpl. rewrite Nat.eqb_refl. split; reflexivity.
Qed.

Lemma normalize_from_run (w : Call.world) (dat : DataFrame)
    (lookup : list (string * value)) (var : string) :
  fst (Call.normalize_from dat lookup var w) = outcome (normalize_data dat lookup var)
  /\ Call.heap (snd (Call.normalize_from dat lookup var w)) = Call.heap w.
Proof. split; reflexivity. Qed.

(** With every stage configured and instruction tables of two columns,
    [create_data] returns what the stages compute one after the other:
    the data are split under the default row labels, the split data are
    normalized with the lookup built from the
    normalization table, then remapped, then aggregated; the first
    exception ends the call. *)
Theorem create_data_pipeline
    (w : Call.world) (data split_info normalization_info aggregation_information : Call.loc)
    (d : list (string * string)) (nv cv av : string) :
  List.length (columns (Call.heap w split_info)) = 2%nat ->
  List.length (columns (Call.heap w aggregation_information)) = 2%nat ->
  fst (Call.create_data data (Some split_info) (Some normalization_info) nv
         (Some d) cv (Some aggregation_information) av w)
  = (dat <- split_multiple_categorical_vars (Call.heap w data)
              (range_index (List.length (rows (Call.heap w data))))
              (Call.table_rows (Call.heap w split_info)) ;;
     norm_dict <- get_lookup (Call.heap w normalization_info) ;;
     dat <- outcome (normalize_data dat norm_dict nv) ;;
     dat <- repl_with_agg_string dat cv d ;;
     aggregate_data dat (Call.table_rows (Call.heap w aggregation_information)) av).
Proof.
  intros Hsplit Hagg.
  cbv beta iota zeta delta [Call.create_data Call.bindM Call.load Call.lift
                              Call.remap_from].
  destruct (split_from_two w (Call.heap w data)
              (range_index (List.length (rows (Call.heap w data)))) split_info Hsplit)
    as [Hres Hheap].
  destruct (Call.split_from (Call.heap w data)
              (range_index (List.length (rows (Call.heap w data)))) split_info w)
    as [[dat1|e] w1];
    cbn [fst snd] in Hres, Hheap; rewrite <- Hres; cbn [bind fst]; [|reflexivity].
  assert (Hlookup : get_lookup (Call.heap w1 normalization_info)
                    = get_lookup (Call.heap w normalization_info)).
  { rewrite Hheap. destruct (Nat.eqb_spec normalization_info split_info) as [Heq|_];
      [|reflexivity].
    subst normalization_info.
    apply get_lookup_relabel; [discriminate|].
    destruct (columns (Call.heap w split_info)); discriminate. }
  rewrite Hlookup.
  destruct (get_lookup (Call.heap w normalization_info)) as [norm_dict|e];
    cbn [bind fst]; [|reflexivity].
  destruct (normalize_from_run w1 dat1 norm_dict nv) as [Hnres Hnheap].
  destruct (Call.normalize_from dat1 norm_dict nv w1) as [[dat2|e] w2];
    cbn [fst snd] in Hnres, Hnheap; rewrite <- Hnres; cbn [bind fst]; [|reflexivity].
  destruct (repl_with_agg_string dat2 cv d) as [dat3|e]; cbn [bind fst]; [|reflexivity].
  assert (Hlen : List.length (columns (Call.heap w2 aggregation_information)) = 2%nat).
  { rewrite Hnheap, Hheap.
    destruct (Nat.eqb aggregation_information split_info); [reflexivity | exact Hagg]. }
  destruct (aggregate_from_two w2 dat3 aggregation_information av Hlen) as [Hares _].
  rewrite Hares. f_equal. rewrite Hnheap, Hheap.
  destruct (Nat.eqb_spec aggregation_information split_info) as [->|_]; reflexivity.
Qed.

End PipelineFacts.

(** ** The further properties at sample data *)

Lemma lower_char_twice (c : ascii) :
  Lib.lower_char (Lib.lower_char c) = Lib.lower_char c.
Proof.
  destruct c as [[] [] [] [] [] [] [] []]; reflexivity.
Qed.

Lemma lower_twice (s : string) : Lib.lower (Lib.lower s) = Lib.lower s.
Proof.
  induction s as [|c s IH]; simpl; [reflexivity|].
  rewrite lower_char_twice, IH. reflexivity.
Qed.

Ltac text_rows :=
  let r := fresh "r" in
  let H := fresh "H" in
  intros r H; simpl in H;
  repeat (destruct H as [<-|H]; [eexists; reflexivity|]);
  contradiction.

Lemma split_categorical_vars_binary_witness :
  columns (mkFrame ["morning"; "evening"] [[VInt 0; VInt 0]; [VInt 1; VInt 1]])
  = map snd sight_labels
  /\ List.length (rows (mkFrame ["morning"; "evening"] [[VInt 0; VInt 0]; [VInt 1; VInt 1]]))
     = List.length [VList [VInt 7]; VStr "1,3"]
  /\ Forall (fun r => List.length r = List.length sight_labels /\ Forall binary r)
            (rows (mkFrame ["morning"; "evening"] [[VInt 0; VInt 0]; [VInt 1; VInt 1]])).
Proof.
  apply (split_categorical_vars_binary (py := Lib.lib)
           [VList [VInt 7]; VStr "1,3"] sight_labels).
  reflexivity.
Defined.

Lemma split_categorical_vars_long_list_witness :
  split_categorical_vars (py := Lib.lib)
    ([VStr "1"] ++ VList [VStr "1"; VStr "3"] :: [VStr "3"]) sight_labels
  = Raise AttributeError.
Proof.
  apply (split_categorical_vars_long_list (py := Lib.lib)).
  - distinct_labels.
  - responses.
  - simpl. lia.
Defined.

Lemma tokens_round_trip_witness :
  exists ts,
    tokens (py := Lib.lib) (VStr "1,3") = Ok ts
    /\ join "," ts = "1,3"
    /\ Forall (fun t => has_char comma t = false) ts
    /\ List.length ts = S (count_char comma "1,3").
Proof.
  apply (tokens_round_trip (py := Lib.lib) "1,3"). simpl. lia.
Defined.

Lemma split_multiple_categorical_vars_rows_witness :
  List.length (rows (mkFrame ["species"; "morning"; "evening"]
                       [[VStr "Owl"; VInt 1; VInt 1]; [VStr "HAWK"; VInt 0; VInt 1]]))
  = List.length (rows observations)
  /\ (rectangular_frame observations ->
      rectangular_frame (mkFrame ["species"; "morning"; "evening"]
                           [[VStr "Owl"; VInt 1; VInt 1]; [VStr "HAWK"; VInt 0; VInt 1]])).
Proof.
  apply (split_multiple_categorical_vars_rows (py := Lib.lib) observations _
           [VInt 0; VInt 1] sight_instructions).
  - reflexivity.
  - reflexivity.
Defined.

Lemma replace_bounds_witness :
  replace [VStr "GHA"; VInt 5] [VStr "gila woodpecker"; VStr "gila thrasher"] 0
  = Ok [[VStr "gila woodpecker"; VInt 5]; [VStr "gila thrasher"; VInt 5]]
  /\ replace [VStr "GHA"; VInt 5] [VStr "gila woodpecker"] 2 = Raise IndexError.
Proof.
  split.
  - destruct (replace_bounds [VStr "GHA"; VInt 5]
                [VStr "gila woodpecker"; VStr "gila thrasher"] 0) as [H _].
    destruct H as [H _]; [simpl; lia | exact H].
  - destruct (replace_bounds [VStr "GHA"; VInt 5] [VStr "gila woodpecker"] 2)
      as [_ [H _]].
    apply H; [simpl; lia | discriminate].
Defined.


Lemma normalize_data_rectangular_witness :
  columns (mkFrame ["org"; "n"]
             [[VStr "gila woodpecker"; VInt 5]; [VStr "gila thrasher"; VInt 5]])
  = columns mixed_organisations
  /\ rectangular_frame
       (mkFrame ["org"; "n"]
          [[VStr "gila woodpecker"; VInt 5]; [VStr "gila thrasher"; VInt 5]]).
Proof.
  apply (normalize_data_rectangular (py := Lib.lib) mixed_organisations _ gila_lookup "org").
  - rectangular.
  - reflexivity.
Defined.

Lemma normalize_data_ignores_case_witness :
  outcome (normalize_data (py := Lib.lib)
             (mkFrame ["org"; "n"] [[VStr "gha"; VInt 5]; [VStr "zzz"; VInt 1]])
             gila_lookup "org")
  = outcome (normalize_data (py := Lib.lib) mixed_organisations gila_lookup "org").
Proof.
  apply (normalize_data_ignores_case (py := Lib.lib) mixed_organisations gila_lookup
           "org" 0 Lib.lower).
  - reflexivity.
  - text_rows.
  - exact lower_twice.
Defined.

Lemma normalize_data_missing_column_witness :
  normalize_data (py := Lib.lib) mixed_organisations gila_lookup "name"
  = mkRun [] (Raise KeyError)
  /\ normalize_data (py := Lib.lib) (mkFrame ["org"; "n"] []) gila_lookup "name"
     = mkRun [] (Ok (mkFrame ["org"; "n"] [])).
Proof.
  split.
  - destruct (normalize_data_missing_column (py := Lib.lib) mixed_organisations
                gila_lookup "name") as [H _]; [reflexivity|].
    apply H. discriminate.
  - destruct (normalize_data_missing_column (py := Lib.lib) (mkFrame ["org"; "n"] [])
                gila_lookup "name") as [_ H]; [reflexivity|].
    apply H. reflexivity.
Defined.

Lemma get_lookup_entries_witness :
  Forall (fun kv => is_null (snd kv) = false
                    /\ exists s, fst kv = str_lower (PyLib := Lib.lib) s)
         [("gha", VStr "gila woodpecker"); ("gha", VStr "gila thrasher");
          ("owl", VStr "owl"); ("hawk", VStr "hawk")].
Proof.
  apply (get_lookup_entries (py := Lib.lib) wide_table). reflexivity.
Defined.

Lemma get_lookup_first_row_wins_witness :
  exists lookup,
    get_lookup (py := Lib.lib) wide_table = Ok lookup
    /\ forall k, lookup_matches lookup k
                 = match find (raw_is (py := Lib.lib) k) (rows wide_table) with
                   | Some r => replacements r
                   | None => []
                   end.
Proof.
  apply (get_lookup_first_row_wins (py := Lib.lib) wide_table).
  - discriminate.
  - unfold plain_row. repeat (apply Forall_cons; [do 2 eexists; split;
      [reflexivity | repeat constructor]|]). apply Forall_nil.
  - exact lower_twice.
Defined.

Lemma repl_with_agg_string_rows_witness :
  columns (mkFrame ["species"] [[VStr "raptor"]; [VStr "raptor"]]) = columns birds
  /\ List.length (rows (mkFrame ["species"] [[VStr "raptor"]; [VStr "raptor"]]))
     = List.length (rows birds)
  /\ forall i r, nth_error (rows birds) i = Some r ->
       exists s g,
         nth_error r 0 = Some (VStr s)
         /\ dict_get bird_groups s = Some g
         /\ nth_error (rows (mkFrame ["species"] [[VStr "raptor"]; [VStr "raptor"]])) i
            = Some (set_nth 0 (VStr g) r).
Proof.
  apply (repl_with_agg_string_rows birds _ "species" bird_groups 0); reflexivity.
Defined.



Lemma aggregate_data_labels_witness :
  columns (mkFrame ["species"; "seen"] [[VStr "owl"; float 1]; [VStr "hawk"; float 0]])
  = ["species"; "seen"].
Proof.
  apply (aggregate_data_labels (py := Lib.lib) sightings _
           [(VStr "seen", VStr "three")] ["seen"] "species"
           [VStr "owl"; VStr "owl"; VStr "hawk"; nan]).
  - reflexivity.
  - reflexivity.
  - distinct_labels.
  - reflexivity.
  - reflexivity.
Defined.


Lemma aggregate_data_call_witness :
  fst (Call.aggregate_data (py := Lib.lib) 0%nat 1%nat "species" sample_world)
  = aggregate_data (py := Lib.lib) sightings [(VStr "seen", VStr "three")] "species".
Proof.
  destruct (aggregate_data_call (py := Lib.lib) sample_world 0%nat 1%nat "species")
    as [_ H].
  destruct H as [H _]; [reflexivity | exact H].
Defined.

Lemma split_multiple_categorical_vars_call_witness :
  fst (Call.split_multiple_categorical_vars (py := Lib.lib) 0%nat 1%nat pipeline_world)
  = Ok (mkFrame ["species"; "morning"; "evening"]
          [[VStr "Owl"; VInt 1; VInt 1]; [VStr "HAWK"; VInt 0; VInt 1]])
  /\ Call.split_multiple_categorical_vars (py := Lib.lib) 0%nat 2%nat pipeline_world
     = (Raise ValueError, pipeline_world).
Proof.
  split.
  - destruct (split_multiple_categorical_vars_call (py := Lib.lib) pipeline_world
                0%nat 1%nat) as [_ H].
    destruct H as [H _]; [reflexivity | exact H].
  - destruct (split_multiple_categorical_vars_call (py := Lib.lib) pipeline_world
                0%nat 2%nat) as [H _].
    apply H. discriminate.
Defined.

Lemma aggregate_data_repeatable_witness :
  fst (Call.aggregate_data (py := Lib.lib) 0%nat 1%nat "species"
         (snd (Call.aggregate_data (py := Lib.lib) 0%nat 1%nat "species" sample_world)))
  = fst (Call.aggregate_data (py := Lib.lib) 0%nat 1%nat "species" sample_world).
Proof.
  apply (aggregate_data_repeatable (py := Lib.lib) sample_world 0%nat 1%nat "species").
  discriminate.
Defined.

Lemma create_data_fail_fast_witness :
  Call.create_data (py := Lib.lib) 0%nat (Some 2%nat) None "species" None "species"
    (Some 3%nat) "species" pipeline_world
  = (Raise ValueError, pipeline_world).
Proof.
  destruct (create_data_fail_fast (py := Lib.lib) pipeline_world 0%nat 2%nat None
              (Some 3%nat) None "species" "species" "species" ValueError) as [_ H].
  apply H.
  - reflexivity.
  - reflexivity.
Defined.

Lemma create_data_pipeline_witness :
  fst (Call.create_data (py := Lib.lib) 0%nat (Some 1%nat) (Some 2%nat) "species"
         (Some bird_groups) "species" (Some 3%nat) "species" pipeline_world)
  = Ok (mkFrame ["species"; "morning"; "evening"] [[VStr "raptor"; VInt 1; VInt 1]]).
Proof.
  etransitivity.
  - apply (create_data_pipeline (py := Lib.lib) pipeline_world 0%nat 1%nat 2%nat 3%nat
             bird_groups "species" "species" "species"); reflexivity.
  - reflexivity.
Defined.
